(** * hasura-auth: registration and email-change handlers

    A shallow embedding of two Express request handlers,

    - [registerAccount]  (POST /register), and
    - [userEmailChange]  (src/routes/user/email/change.ts),

    together with the properties of the ticket workflow they implement.

    Both handlers are straight-line asynchronous code: they read the request,
    call external services (the GraphQL backend, the mail transport, the
    password helpers) and answer through [res].  The embedding keeps that
    shape.  A handler is a computation in a small monad whose result is a JS
    completion (normal value, early [return], or a thrown exception) together
    with the chronological list of the external calls it performed.  What the
    external services answer is not decided by this code, so it is a parameter
    of every definition. *)

From Stdlib Require Import String Ascii List ZArith Bool Lia.
Import ListNotations.

Open Scope string_scope.
Open Scope Z_scope.

(** ** JavaScript values *)

#[warnings="-register-all"]
Inductive JsValue : Type :=
| JUndefined
| JNull
| JBool (b : bool)
| JNum (n : Z)
| JStr (s : string)
| JArr (l : list JsValue).

(** A plain object: its own enumerable properties in insertion order. *)
Definition Obj := list (string * JsValue).

Fixpoint obj_get (k : string) (o : Obj) : option JsValue :=
  match o with
  | [] => None
  | (k', v) :: o' => if String.eqb k k' then Some v else obj_get k o'
  end.

(** [k in o] *)
Definition obj_has (k : string) (o : Obj) : bool :=
  match obj_get k o with Some _ => true | None => false end.

(** [o.k] *)
Definition obj_prop (k : string) (o : Obj) : JsValue :=
  match obj_get k o with Some v => v | None => JUndefined end.

(** [o[k] = v]: an existing key keeps its position, a new one goes last. *)
Fixpoint obj_set (k : string) (v : JsValue) (o : Obj) : Obj :=
  match o with
  | [] => [(k, v)]
  | (k', v') :: o' =>
      if String.eqb k k' then (k, v) :: o' else (k', v') :: obj_set k v o'
  end.

(** [{ ...base, ...over }] *)
Definition obj_spread (base over : Obj) : Obj :=
  fold_left (fun acc kv => obj_set (fst kv) (snd kv) acc) over base.

(** [a ?? b] *)
Definition nullish {A : Type} (a : option A) (b : A) : A :=
  match a with Some x => x | None => b end.

(** Strict equality of two values that are a string or [undefined]. *)
Definition strict_eq (a b : option string) : bool :=
  match a, b with
  | Some x, Some y => String.eqb x y
  | None, None => true
  | _, _ => false
  end.

(** [xs.includes(x)] on an array of strings. *)
Definition includes (xs : list string) (x : string) : bool :=
  existsb (String.eqb x) xs.

(** [xs.every(p)] *)
Definition every {A : Type} (p : A -> bool) (xs : list A) : bool :=
  forallb p xs.

(** ** Exceptions, completions and the handler monad *)

Inductive Exn : Type :=
| Error (message : string)
| TypeError.

(** What an awaited external call gives back: a value or a rejection. *)
Inductive Result (A : Type) : Type :=
| Ok (a : A)
| Rejected (e : Exn).
Arguments Ok {A} a.
Arguments Rejected {A} e.

(** [res.boom.*] and [res.send]. *)
Inductive Response (B : Type) : Type :=
| Boom (statusCode : Z) (message : string)
| Send (body : B).
Arguments Boom {B} statusCode message.
Arguments Send {B} body.

Definition unauthorized {B : Type} (message : string) : Response B :=
  Boom 401 message.
Definition badRequest {B : Type} (message : string) : Response B :=
  Boom 400 message.

Definition is_4xx {B : Type} (r : Response B) : bool :=
  match r with
  | Boom c _ => (400 <=? c) && (c <? 500)
  | Send _ => false
  end.

Section Monad.
(** [E]: the external calls a handler can perform; [R]: what it answers. *)
Context {E R : Type}.

Inductive Completion (A : Type) : Type :=
| Normal (a : A)
| Return (r : R)
| Throw (e : Exn).

Definition M (A : Type) : Type := (Completion A * list E)%type.

Definition ret {A : Type} (a : A) : M A := (Normal A a, []).

Definition bind {A B : Type} (m : M A) (k : A -> M B) : M B :=
  match m with
  | (Normal _ a, t1) => let (c, t2) := k a in (c, (t1 ++ t2)%list)
  | (Return _ r, t1) => (Return B r, t1)
  | (Throw _ e, t1) => (Throw B e, t1)
  end.

(** [return r] in the middle of the handler body. *)
Definition return_ {A : Type} (r : R) : M A := (Return A r, []).

(** [throw e] *)
Definition throw {A : Type} (e : Exn) : M A := (Throw A e, []).

(** [if (b) { m }] with no [else]. *)
Definition when (b : bool) (m : M unit) : M unit :=
  if b then m else ret tt.

(** [await f(x)]: the call is recorded with its answer; a rejection is
    re-thrown at the [await]. *)
Definition await {A : Type} (ev : Result A -> E) (r : Result A) : M A :=
  match r with
  | Ok a => (Normal A a, [ev r])
  | Rejected e => (Throw A e, [ev r])
  end.

(** A synchronous effect with no result (logging). *)
Definition emit (e : E) : M unit := (Normal unit tt, [e]).

(** How one invocation of a handler ends. *)
Inductive Outcome : Type :=
| Responded (r : R)
| Failed (e : Exn).

Definition outcome (m : M R) : Outcome :=
  match fst m with
  | Normal _ r => Responded r
  | Return _ r => Responded r
  | Throw _ e => Failed e
  end.

Definition trace {A : Type} (m : M A) : list E := snd m.
End Monad.

Arguments Completion : clear implicits.
Arguments M : clear implicits.
Arguments Outcome : clear implicits.
Arguments Normal {R A} a.
Arguments Return {R A} r.
Arguments Throw {R A} e.

Declare Scope handler_scope.
Delimit Scope handler_scope with handler.
Notation "x <- c1 ;; c2" := (bind c1 (fun x => c2))
  (at level 61, c1 at next level, right associativity) : handler_scope.
Notation "c1 ;; c2" := (bind c1 (fun _ => c2))
  (at level 61, right associativity) : handler_scope.

(** ** Mail *)

Record Header : Type := { prepared : bool; value : string }.

Record Message : Type := {
  to : string;
  headers : list (string * Header)
}.

Record Email : Type := {
  template : string;
  message : Message;
  locals : Obj
}.

Definition header_value (name : string) (m : Message) : option string :=
  match find (fun h => String.eqb name (fst h)) (headers m) with
  | Some h => Some (value (snd h))
  | None => None
  end.

(** * POST /register *)

Module Register.

(** ** Request and database types ([@/validation], [@/types]) *)

Record RegisterOptions : Type := {
  opt_default_role : option string;
  opt_allowed_roles : option (list string)
}.

(** [req.body]; every property but [email] may be absent. *)
Record RegisterSchema : Type := {
  body_email : string;
  body_password : option string;
  body_user_data : option Obj;
  body_register_options : option RegisterOptions;
  body_locale : option string
}.

Record Request : Type := {
  req_headers : list (string * string);
  req_body : RegisterSchema
}.

(** [req.headers[name]] *)
Definition header (name : string) (req : Request) : option string :=
  match find (fun h => String.eqb name (fst h)) (req_headers req) with
  | Some h => Some (snd h)
  | None => None
  end.

Record AccountRole : Type := { role : string }.

Record UserRow : Type := {
  user_id : string;
  user_display_name : string;
  user_avatar_url : option string
}.

(** A row of [auth.accounts] as the backend returns it. *)
Record AccountData : Type := {
  account_id : string;
  account_email : string;
  account_active : bool;
  account_locale : string;
  account_default_role : string;
  account_roles : list AccountRole;
  account_user : UserRow
}.

(** The [account] variable of the [insertAccount] mutation. *)
Record AccountInsertInput : Type := {
  email : string;
  password_hash : option string;
  ticket : string;
  ticket_expires_at : string;
  active : bool;
  locale : option string;
  default_role : string;
  account_roles_data : list AccountRole;
  user_data : Obj
}.

Record UserData : Type := {
  ud_id : string;
  ud_display_name : string;
  ud_email : string;
  ud_avatar_url : option string
}.

(** [refresh_token] is an optional property of [Session]. *)
Record Session : Type := {
  jwt_token : option string;
  jwt_expires_in : option Z;
  session_user : UserData;
  refresh_token : option string
}.

(** ** Configuration ([@config/index]) *)

Record RegistrationConfig : Type := {
  ADMIN_ONLY : bool;
  WHITELIST : bool;
  DEFAULT_USER_ROLE : string;
  DEFAULT_ALLOWED_USER_ROLES : list string;
  ALLOWED_USER_ROLES : list string;
  AUTO_ACTIVATE_NEW_USERS : bool
}.

Record AuthenticationConfig : Type := {
  VERIFY_EMAILS : bool;
  MAGIC_LINK_ENABLED : bool
}.

Record ApplicationConfig : Type := {
  HASURA_GRAPHQL_ADMIN_SECRET : option string;
  EMAILS_ENABLED : bool;
  SERVER_URL : string;
  APP_URL : string
}.

Record HeadersConfig : Type := { ADMIN_SECRET_HEADER : string }.

Record Config : Type := {
  REGISTRATION : RegistrationConfig;
  AUTHENTICATION : AuthenticationConfig;
  APPLICATION : ApplicationConfig;
  HEADERS : HeadersConfig
}.

(** ** The world outside the handler

    The helpers of [@/helpers], [@/jwt], [@/email], [@/request] and
    [@/validation], the [uuid] generator and the clock.  Each is consulted
    at most once per request, so a function of the call's argument is as
    general as any stateful service.  Times are milliseconds since the
    epoch, as a JS [Date] holds them; [toISOString] is the rendering of
    such a time by [Date.prototype.toISOString]. *)

Record World : Type := {
  isAllowedEmail : string -> Result bool;
  selectAccountByEmail : string -> Result (option AccountData);
  isCompromisedPassword : option string -> Result bool;
  hashPassword : option string -> Result string;
  getGravatarUrl : string -> option string;
  request_insertAccount : AccountInsertInput -> Result (list AccountData);
  emailClient_send : Email -> Result unit;
  setRefreshToken : string -> Result string;
  createHasuraJwt : AccountData -> string;
  newJwtExpiry : Z;
  uuidv4 : string;
  Date_now : Z;
  toISOString : Z -> string;
  isRegularLogin : RegisterSchema -> bool;
  isMagicLinkLogin : RegisterSchema -> bool;
  isMagicLinkRegister : RegisterSchema -> bool
}.

(** The external calls of one request, each with what it answered. *)
Inductive Event : Type :=
| IsAllowedEmail (e : string) (r : Result bool)
| SelectAccountByEmail (e : string) (r : Result (option AccountData))
| IsCompromisedPassword (p : option string) (r : Result bool)
| HashPassword (p : option string) (r : Result string)
| InsertAccount (account : AccountInsertInput) (r : Result (list AccountData))
| EmailSend (m : Email) (r : Result unit)
| SetRefreshToken (id : string) (r : Result string)
| LoggerVerbose (msg : string) (meta : Obj).

Definition Handler : Type -> Type := M Event (Response Session).

Definition js_string (s : option string) : JsValue :=
  match s with Some x => JStr x | None => JUndefined end.

Definition js_strings (l : list string) : JsValue := JArr (map JStr l).

Section Handler.
Variable config : Config.
Variable W : World.

Local Abbreviation REGISTRATION := (REGISTRATION config).
Local Abbreviation AUTHENTICATION := (AUTHENTICATION config).
Local Abbreviation APPLICATION := (APPLICATION config).
Local Abbreviation HEADERS := (HEADERS config).

Local Open Scope handler_scope.

(** [register_options.default_role ?? REGISTRATION.DEFAULT_USER_ROLE] *)
Definition resolved_default_role (body : RegisterSchema) : string :=
  let register_options :=
    nullish (body_register_options body) (Build_RegisterOptions None None) in
  nullish (opt_default_role register_options) (DEFAULT_USER_ROLE REGISTRATION).

(** [register_options.allowed_roles ?? REGISTRATION.DEFAULT_ALLOWED_USER_ROLES] *)
Definition resolved_allowed_roles (body : RegisterSchema) : list string :=
  let register_options :=
    nullish (body_register_options body) (Build_RegisterOptions None None) in
  nullish (opt_allowed_roles register_options)
          (DEFAULT_ALLOWED_USER_ROLES REGISTRATION).

Definition registerAccount (req : Request) : Handler (Response Session) :=
  let body := req_body req in
  when (ADMIN_ONLY REGISTRATION) (
    let adminSecret := header (ADMIN_SECRET_HEADER HEADERS) req in
    when (negb (strict_eq adminSecret (HASURA_GRAPHQL_ADMIN_SECRET APPLICATION)))
      (return_ (unauthorized "Invalid x-admin-secret"))) ;;
  let email := body_email body in
  let user_data := nullish (body_user_data body) [] in
  let locale := body_locale body in
  notAllowed <-
    (if WHITELIST REGISTRATION
     then ok <- await (IsAllowedEmail email) (isAllowedEmail W email) ;;
          ret (negb ok)
     else ret false) ;;
  when notAllowed (return_ (unauthorized "Email not allowed")) ;;
  existing <- await (SelectAccountByEmail (body_email body))
                    (selectAccountByEmail W (body_email body)) ;;
  when (match existing with Some _ => true | None => false end)
    (return_ (badRequest "Account already exists")) ;;
  let ticket := uuidv4 W in
  (* active for 60 minutes *)
  let ticket_expires_at := toISOString W (Date_now W + 60 * 60 * 1000) in
  password_hash <-
    (if isRegularLogin W body
     then
       weak <- await (IsCompromisedPassword (body_password body))
                     (isCompromisedPassword W (body_password body)) ;;
       when weak (return_ (badRequest "Password is too weak")) ;;
       h <- await (HashPassword (body_password body))
                  (hashPassword W (body_password body)) ;;
       ret (Some h)
     else ret None) ;;
  let defaultRole := resolved_default_role body in
  let allowedRoles := resolved_allowed_roles body in
  (* check if default role is part of allowedRoles *)
  when (negb (includes allowedRoles defaultRole)) (
    emit (LoggerVerbose
            ("User tried registering with email " ++ email
             ++ " but used an invalid default role " ++ defaultRole)
            [("email", JStr email);
             ("default_role", JStr defaultRole);
             ("allowed_roles", js_strings allowedRoles)]) ;;
    return_ (badRequest "Default role must be part of allowed roles")) ;;
  (* check if allowed roles is a subset of ALLOWED_ROLES *)
  when (negb (every (fun role => includes (ALLOWED_USER_ROLES REGISTRATION) role)
                    allowedRoles)) (
    emit (LoggerVerbose
            ("User tried registering with email " ++ email
             ++ " but used an invalid role")
            [("email", JStr email);
             ("allowed_roles", js_strings allowedRoles);
             ("app_allowed_roles",
              js_strings (ALLOWED_USER_ROLES REGISTRATION))]) ;;
    return_ (badRequest "Allowed roles must be a subset of ALLOWED_ROLES")) ;;
  let accountRoles := map Build_AccountRole allowedRoles in
  let avatarUrl := getGravatarUrl W email in
  let account_input := {|
    email := email;
    password_hash := password_hash;
    ticket := ticket;
    ticket_expires_at := ticket_expires_at;
    active := AUTO_ACTIVATE_NEW_USERS REGISTRATION;
    locale := locale;
    default_role := defaultRole;
    account_roles_data := accountRoles;
    user_data :=
      obj_spread [("display_name", JStr email);
                  ("avatar_url", js_string avatarUrl)] user_data
  |} in
  returning <- await (InsertAccount account_input)
                     (request_insertAccount W account_input) ;;
  (* accounts.insert_auth_accounts.returning[0] *)
  account <- match returning with
             | a :: _ => ret a
             | [] => throw TypeError
             end ;;
  let user := {|
    ud_id := user_id (account_user account);
    ud_display_name := user_display_name (account_user account);
    ud_email := account_email account;
    ud_avatar_url := user_avatar_url (account_user account)
  |} in
  when (negb (AUTO_ACTIVATE_NEW_USERS REGISTRATION)
        && VERIFY_EMAILS AUTHENTICATION) (
    when (negb (EMAILS_ENABLED APPLICATION))
      (throw (Error "SMTP settings unavailable")) ;;
    (* use display name from `user_data` if available *)
    let display_name :=
      if obj_has "display_name" user_data
      then obj_prop "display_name" user_data
      else JStr email in
    let x_ticket := ("x-ticket", {| prepared := true; value := ticket |}) in
    when (isMagicLinkLogin W body) (
      let mail := {|
        template := "magic-link";
        message := {| to := ud_email user; headers := [x_ticket] |};
        locals := [("display_name", display_name);
                   ("token", JStr ticket);
                   ("url", JStr (SERVER_URL APPLICATION));
                   ("locale", JStr (account_locale account));
                   ("app_url", JStr (APP_URL APPLICATION));
                   ("action", JStr "register");
                   ("action_url", JStr "register")]
      |} in
      await (EmailSend mail) (emailClient_send W mail) ;;
      let session := {| jwt_token := None; jwt_expires_in := None;
                        session_user := user; refresh_token := None |} in
      emit (LoggerVerbose
              ("New magic link user registration with id " ++ ud_id user
               ++ " and email " ++ email)
              [("user_id", JStr (ud_id user)); ("email", JStr email)]) ;;
      return_ (Send session)) ;;
    let mail := {|
      template := "activate-account";
      message := {| to := email; headers := [x_ticket] |};
      locals := [("display_name", display_name);
                 ("ticket", JStr ticket);
                 ("url", JStr (SERVER_URL APPLICATION));
                 ("locale", JStr (account_locale account))]
    |} in
    await (EmailSend mail) (emailClient_send W mail) ;;
    let session := {| jwt_token := None; jwt_expires_in := None;
                      session_user := user; refresh_token := None |} in
    emit (LoggerVerbose
            ("New user registration with id " ++ ud_id user
             ++ " and email " ++ email)
            [("user_id", JStr (ud_id user)); ("email", JStr email)]) ;;
    return_ (Send session)) ;;
  refresh_token <- await (SetRefreshToken (account_id account))
                         (setRefreshToken W (account_id account)) ;;
  (* generate JWT *)
  let jwt_token := createHasuraJwt W account in
  let jwt_expires_in := newJwtExpiry W in
  let session := {| jwt_token := Some jwt_token;
                    jwt_expires_in := Some jwt_expires_in;
                    session_user := user;
                    refresh_token := Some refresh_token |} in
  emit (LoggerVerbose
          ("New user registration with id " ++ ud_id user
           ++ " and email " ++ email)
          [("user_id", JStr (ud_id user)); ("email", JStr email)]) ;;
  ret (Send session).

(** The middleware in front of the handler on [router.post('/register')]. *)
Definition register_route (req : Request) : Handler (Response Session) :=
  if isMagicLinkRegister W (req_body req)
     && negb (MAGIC_LINK_ENABLED AUTHENTICATION)
  then ret (badRequest "Magic link registration is disabled")
  else registerAccount req.

(** The request gets past everything the handler tests before it looks at
    the roles: the admin secret, the whitelist, the existing account and,
    for a regular login, the password check and the hashing. *)
Definition passes_earlier_checks (req : Request) : bool :=
  let body := req_body req in
  (negb (ADMIN_ONLY REGISTRATION)
   || strict_eq (header (ADMIN_SECRET_HEADER HEADERS) req)
                (HASURA_GRAPHQL_ADMIN_SECRET APPLICATION))
  && (negb (WHITELIST REGISTRATION)
      || match isAllowedEmail W (body_email body) with
         | Ok allowed => allowed
         | Rejected _ => false
         end)
  && match selectAccountByEmail W (body_email body) with
     | Ok None => true
     | _ => false
     end
  && (negb (isRegularLogin W body)
      || match isCompromisedPassword W (body_password body),
               hashPassword W (body_password body) with
         | Ok false, Ok _ => true
         | _, _ => false
         end).
End Handler.

(** ** Observations on a trace *)

(** The accounts handed to the [insertAccount] mutation. *)
Definition inserted (t : list Event) : list AccountInsertInput :=
  flat_map (fun e => match e with InsertAccount a _ => [a] | _ => [] end) t.

(** The mails handed to the transport. *)
Definition sent (t : list Event) : list Email :=
  flat_map (fun e => match e with EmailSend m _ => [m] | _ => [] end) t.

(** The passwords submitted to the compromised-password check. *)
Definition password_checks (t : list Event) : list (option string) :=
  flat_map (fun e => match e with IsCompromisedPassword p _ => [p] | _ => [] end) t.

End Register.

(** * POST /user/email/change *)

Module EmailChange.

(** ** Request and database types *)

Record Options : Type := { redirectTo : string }.

Record Body : Type := {
  body_newEmail : string;
  body_options : Options
}.

Record RequestAuth : Type := { userId : string }.

(** [req.auth] is filled in by the authentication middleware; the handler
    casts it to [RequestAuth] without a test. *)
Record Request : Type := {
  req_body : Body;
  req_auth : option RequestAuth
}.

(** The [user] variable of the [updateUser] mutation. *)
Record UserSetInput : Type := {
  ticket : string;
  ticketExpiresAt : Z;
  newEmail : string
}.

Record UpdateUserVariables : Type := {
  id : string;
  user : UserSetInput
}.

(** [update_users_by_pk], as far as the handler reads it. *)
Record User : Type := {
  displayName : string;
  locale : option string
}.

(** ** Configuration ([@/utils], [@/types]) *)

Record Env : Type := {
  AUTH_SERVER_URL : string;
  AUTH_CLIENT_URL : string;
  AUTH_LOCALE_DEFAULT : string
}.

Record EmailTypes : Type := { CONFIRM_CHANGE : string }.

(** [ReasonPhrases.OK] of http-status-codes. *)
Definition ReasonPhrases_OK : string := "OK".

(** ** The world outside the handler *)

Record World : Type := {
  uuidv4 : string;
  Date_now : Z;
  gqlSdk_updateUser : UpdateUserVariables -> Result (option User);
  emailClient_send : Email -> Result unit
}.

Inductive Event : Type :=
| UpdateUser (v : UpdateUserVariables) (r : Result (option User))
| EmailSend (m : Email) (r : Result unit).

Definition Handler : Type -> Type := M Event (Response string).

(** Modelled from the spec: [generateTicketExpiresAt] is imported from
    [@/utils], which is not among the sources.  A ticket is "stored with an
    expiry timestamp"; the helper receives the ticket's lifetime in seconds
    (the call site passes [60 * 60], "1 hour") and answers the moment that
    lies this many seconds after the current time, in milliseconds since the
    epoch as a JS [Date] holds it. *)
Definition generateTicketExpiresAt (now : Z) (seconds : Z) : Z :=
  now + seconds * 1000.

Section Handler.
Variable ENV : Env.
Variable EMAIL_TYPES : EmailTypes.
Variable W : World.

Local Open Scope handler_scope.

Definition userEmailChange (req : Request) : Handler (Response string) :=
  let newEmail := body_newEmail (req_body req) in
  let redirectTo := redirectTo (body_options (req_body req)) in
  (* const { userId } = req.auth as RequestAuth *)
  auth <- match req_auth req with
          | Some a => ret a
          | None => throw TypeError
          end ;;
  let userId := userId auth in
  let ticket := CONFIRM_CHANGE EMAIL_TYPES ++ ":" ++ uuidv4 W in
  (* 1 hour *)
  let ticketExpiresAt := generateTicketExpiresAt (Date_now W) (60 * 60) in
  (* set newEmail for user *)
  let variables := {|
    id := userId;
    user := {| ticket := ticket;
               ticketExpiresAt := ticketExpiresAt;
               newEmail := newEmail |}
  |} in
  updatedUserResponse <- await (UpdateUser variables)
                               (gqlSdk_updateUser W variables) ;;
  user <- match updatedUserResponse with
          | Some u => ret u
          | None => throw (Error "Unable to get user")
          end ;;
  let template := "email-confirm-change" in
  let mail := {|
    template := template;
    locals :=
      [("link",
        JStr (AUTH_SERVER_URL ENV ++ "/verify?&ticket=" ++ ticket
              ++ "&type=" ++ CONFIRM_CHANGE EMAIL_TYPES
              ++ "&redirectTo=" ++ redirectTo));
       ("displayName", JStr (displayName user));
       ("ticket", JStr ticket);
       ("redirectTo", JStr redirectTo);
       ("locale", JStr (nullish (locale user) (AUTH_LOCALE_DEFAULT ENV)));
       ("serverUrl", JStr (AUTH_SERVER_URL ENV));
       ("clientUrl", JStr (AUTH_CLIENT_URL ENV))];
    message := {|
      to := newEmail;
      headers :=
        [("x-ticket", {| prepared := true; value := ticket |});
         ("x-redirect-to", {| prepared := true; value := redirectTo |});
         ("x-email-template", {| prepared := true; value := template |})]
    |}
  |} in
  await (EmailSend mail) (emailClient_send W mail) ;;
  ret (Send ReasonPhrases_OK).
End Handler.

(** ** Observations on a trace *)

(** What the handler asked the backend to store on the user record. *)
Definition stored (t : list Event) : list UserSetInput :=
  flat_map (fun e => match e with UpdateUser v _ => [user v] | _ => [] end) t.

(** The mails handed to the transport. *)
Definition sent (t : list Event) : list Email :=
  flat_map (fun e => match e with EmailSend m _ => [m] | _ => [] end) t.

(** The mails the transport accepted. *)
Definition delivered (t : list Event) : list Email :=
  flat_map (fun e => match e with EmailSend m (Ok _) => [m] | _ => [] end) t.

(** The updates after which the backend returned the user record. *)
Definition updated (t : list Event) : list UserSetInput :=
  flat_map (fun e => match e with
                     | UpdateUser v (Ok (Some _)) => [user v]
                     | _ => []
                     end) t.

End EmailChange.

(** * Vocabulary of the ticket workflow *)

(** A ticket carries a type tag when some tag, followed by [:], is a prefix
    of it. *)
Definition has_type_tag (t : string) : Prop :=
  exists tag : string, String.prefix (tag ++ ":") t = true.

(** The text before the first [:] of a ticket, if there is a [:]. *)
Fixpoint type_tag (t : string) : option string :=
  match t with
  | EmptyString => None
  | String c t' =>
      if Ascii.eqb c ":" then Some EmptyString
      else option_map (String c) (type_tag t')
  end.

(** The length of [n] minutes in milliseconds. *)
Definition minutes (n : Z) : Z := n * 60 * 1000.

(** * A concrete deployment

    Used to run the handlers on explicit requests. *)

Module Sample.

(** [Date.prototype.toISOString] for the years 0000 to 9999: the proleptic
    Gregorian date of a day number, then [YYYY-MM-DDTHH:mm:ss.sssZ]. *)
Definition civil_from_days (z : Z) : Z * Z * Z :=
  let z := z + 719468 in
  let era := z / 146097 in
  let doe := z - era * 146097 in
  let yoe := (doe - doe / 1460 + doe / 36524 - doe / 146096) / 365 in
  let doy := doe - (365 * yoe + yoe / 4 - yoe / 100) in
  let mp := (5 * doy + 2) / 153 in
  let d := doy - (153 * mp + 2) / 5 + 1 in
  let m := if mp <? 10 then mp + 3 else mp - 9 in
  let y := yoe + era * 400 in
  (if m <=? 2 then y + 1 else y, m, d).

Fixpoint digits (width : nat) (n : Z) : string :=
  match width with
  | O => EmptyString
  | S w =>
      digits w (n / 10)
      ++ String (ascii_of_nat (48 + Z.to_nat (n mod 10))) EmptyString
  end.

Definition toISOString (t : Z) : string :=
  let ms := t mod 86400000 in
  let '(y, m, d) := civil_from_days (t / 86400000) in
  digits 4 y ++ "-" ++ digits 2 m ++ "-" ++ digits 2 d
  ++ "T" ++ digits 2 (ms / 3600000)
  ++ ":" ++ digits 2 (ms / 60000 mod 60)
  ++ ":" ++ digits 2 (ms / 1000 mod 60)
  ++ "." ++ digits 3 (ms mod 1000) ++ "Z".

Definition uuid : string := "110ec58a-a0f2-4ac4-8393-c866d813b8d1".

(** 2023-11-14T22:13:20.000Z *)
Definition now : Z := 1700000000000.

Definition registration : Register.RegistrationConfig := {|
  Register.ADMIN_ONLY := false;
  Register.WHITELIST := false;
  Register.DEFAULT_USER_ROLE := "user";
  Register.DEFAULT_ALLOWED_USER_ROLES := ["user"];
  Register.ALLOWED_USER_ROLES := ["user"; "me"];
  Register.AUTO_ACTIVATE_NEW_USERS := false
|}.

(** Mail verification on. *)
Definition verifying : Register.Config := {|
  Register.REGISTRATION := registration;
  Register.AUTHENTICATION :=
    {| Register.VERIFY_EMAILS := true; Register.MAGIC_LINK_ENABLED := true |};
  Register.APPLICATION :=
    {| Register.HASURA_GRAPHQL_ADMIN_SECRET := Some "secret";
       Register.EMAILS_ENABLED := true;
       Register.SERVER_URL := "https://auth.example.com";
       Register.APP_URL := "https://app.example.com" |};
  Register.HEADERS := {| Register.ADMIN_SECRET_HEADER := "x-admin-secret" |}
|}.

(** Mail verification off: new accounts get a session at once. *)
Definition trusting : Register.Config := {|
  Register.REGISTRATION := registration;
  Register.AUTHENTICATION :=
    {| Register.VERIFY_EMAILS := false; Register.MAGIC_LINK_ENABLED := true |};
  Register.APPLICATION := Register.APPLICATION verifying;
  Register.HEADERS := Register.HEADERS verifying
|}.

Definition alice : Register.AccountData := {|
  Register.account_id := "a-1";
  Register.account_email := "alice@example.com";
  Register.account_active := true;
  Register.account_locale := "en";
  Register.account_default_role := "user";
  Register.account_roles := [{| Register.role := "user" |}];
  Register.account_user :=
    {| Register.user_id := "u-1";
       Register.user_display_name := "alice@example.com";
       Register.user_avatar_url := None |}
|}.

(** The backend's answer to an insertion: the new row. *)
Definition row_of (a : Register.AccountInsertInput) : Register.AccountData := {|
  Register.account_id := "a-2";
  Register.account_email := Register.email a;
  Register.account_active := Register.active a;
  Register.account_locale := nullish (Register.locale a) "en";
  Register.account_default_role := Register.default_role a;
  Register.account_roles := Register.account_roles_data a;
  Register.account_user :=
    {| Register.user_id := "u-2";
       Register.user_display_name := Register.email a;
       Register.user_avatar_url := None |}
|}.

Definition has_password (b : Register.RegisterSchema) : bool :=
  match Register.body_password b with Some _ => true | None => false end.

(** A backend that knows [alice], a mail transport that works, and a
    password check that rejects the password [password]. *)
Definition world : Register.World := {|
  Register.isAllowedEmail := fun _ => Ok true;
  Register.selectAccountByEmail := fun e =>
    Ok (if String.eqb e "alice@example.com" then Some alice else None);
  Register.isCompromisedPassword := fun p => Ok (strict_eq p (Some "password"));
  Register.hashPassword := fun p => Ok ("$2a$10$" ++ nullish p "");
  Register.getGravatarUrl := fun _ => None;
  Register.request_insertAccount := fun a => Ok [row_of a];
  Register.emailClient_send := fun _ => Ok tt;
  Register.setRefreshToken := fun _ => Ok "9a1c3b9e-5c0d-4c1e-8f0a-2b7d6e4f1a23";
  Register.createHasuraJwt := fun a => "jwt." ++ Register.account_id a;
  Register.newJwtExpiry := 900000;
  Register.uuidv4 := uuid;
  Register.Date_now := now;
  Register.toISOString := toISOString;
  Register.isRegularLogin := has_password;
  Register.isMagicLinkLogin := fun b => negb (has_password b);
  Register.isMagicLinkRegister := fun b => negb (has_password b)
|}.

Definition register
  (e : string) (p : option string) (o : option Register.RegisterOptions)
  : Register.Request := {|
  Register.req_headers := [];
  Register.req_body :=
    {| Register.body_email := e;
       Register.body_password := p;
       Register.body_user_data := None;
       Register.body_register_options := o;
       Register.body_locale := Some "en" |}
|}.

Definition roles (d : string) (a : list string) : option Register.RegisterOptions :=
  Some {| Register.opt_default_role := Some d;
          Register.opt_allowed_roles := Some a |}.

(** A new user with a password, and the same user asking for a magic link. *)
Definition carol_password : Register.Request :=
  register "carol@example.com" (Some "hunter22") None.
Definition carol_magic : Register.Request :=
  register "carol@example.com" None None.

(** [alice] has an account already; her default role is not allowed either. *)
Definition alice_again : Register.Request :=
  register "alice@example.com" (Some "hunter22") (roles "admin" ["user"]).

(** A default role outside the allowed roles. *)
Definition dave : Register.Request :=
  register "dave@example.com" None (roles "admin" ["user"]).

(** Allowed roles outside the configured ones, with and without the default
    role among them. *)
Definition erin : Register.Request :=
  register "erin@example.com" None (roles "user" ["user"; "admin"]).
Definition frank : Register.Request :=
  register "frank@example.com" None (roles "user" ["admin"]).

Definition carol : Register.UserData := {|
  Register.ud_id := "u-2";
  Register.ud_display_name := "carol@example.com";
  Register.ud_email := "carol@example.com";
  Register.ud_avatar_url := None
|}.

(** The session of an activated account, and the one of an account that
    waits for its mail to be confirmed. *)
Definition signed_in : Register.Session := {|
  Register.jwt_token := Some "jwt.a-2";
  Register.jwt_expires_in := Some 900000;
  Register.session_user := carol;
  Register.refresh_token := Some "9a1c3b9e-5c0d-4c1e-8f0a-2b7d6e4f1a23"
|}.
Definition pending : Register.Session := {|
  Register.jwt_token := None;
  Register.jwt_expires_in := None;
  Register.session_user := carol;
  Register.refresh_token := None
|}.

(** The email-change deployment. *)
Definition env : EmailChange.Env := {|
  EmailChange.AUTH_SERVER_URL := "https://auth.example.com";
  EmailChange.AUTH_CLIENT_URL := "https://app.example.com";
  EmailChange.AUTH_LOCALE_DEFAULT := "en"
|}.

Definition email_types : EmailChange.EmailTypes :=
  {| EmailChange.CONFIRM_CHANGE := "emailConfirmChange" |}.

Definition bob : EmailChange.User :=
  {| EmailChange.displayName := "Bob"; EmailChange.locale := None |}.

(** A backend that knows the user [u-1] only. *)
Definition change_world : EmailChange.World := {|
  EmailChange.uuidv4 := uuid;
  EmailChange.Date_now := now;
  EmailChange.gqlSdk_updateUser := fun v =>
    Ok (if String.eqb (EmailChange.id v) "u-1" then Some bob else None);
  EmailChange.emailClient_send := fun _ => Ok tt
|}.

(** What [bob]'s request stores and what it mails. *)
Definition bob_ticket : string :=
  "emailConfirmChange:110ec58a-a0f2-4ac4-8393-c866d813b8d1".

Definition bob_update : EmailChange.UserSetInput := {|
  EmailChange.ticket := bob_ticket;
  EmailChange.ticketExpiresAt := 1700003600000;
  EmailChange.newEmail := "bob@new.example.com"
|}.

Definition change (uid new : string) : EmailChange.Request := {|
  EmailChange.req_body :=
    {| EmailChange.body_newEmail := new;
       EmailChange.body_options :=
         {| EmailChange.redirectTo := "https://app.example.com/done" |} |};
  EmailChange.req_auth := Some {| EmailChange.userId := uid |}
|}.

(** [bob] is user [u-1]; nobody is user [u-9]. *)
Definition bob_change : EmailChange.Request := change "u-1" "bob@new.example.com".
Definition ghost_change : EmailChange.Request := change "u-9" "ghost@example.com".

End Sample.

(** * Reading a trace further *)

Module RegisterLog.

(** The exception with which an awaited call was rejected. *)
Definition rejection (e : Register.Event) : option Exn :=
  match e with
  | Register.IsAllowedEmail _ (Rejected x) => Some x
  | Register.SelectAccountByEmail _ (Rejected x) => Some x
  | Register.IsCompromisedPassword _ (Rejected x) => Some x
  | Register.HashPassword _ (Rejected x) => Some x
  | Register.InsertAccount _ (Rejected x) => Some x
  | Register.EmailSend _ (Rejected x) => Some x
  | Register.SetRefreshToken _ (Rejected x) => Some x
  | _ => None
  end.

(** What happened before the [insertAccount] mutation was sent. *)
Fixpoint before_insert (t : list Register.Event) : list Register.Event :=
  match t with
  | [] => []
  | Register.InsertAccount _ _ :: _ => []
  | e :: t' => e :: before_insert t'
  end.

(** The passwords handed to [hashPassword]. *)
Definition hashed (t : list Register.Event) : list (option string) :=
  flat_map (fun e => match e with Register.HashPassword p _ => [p] | _ => [] end) t.

(** The emails looked up with [selectAccountByEmail]. *)
Definition looked_up (t : list Register.Event) : list string :=
  flat_map (fun e => match e with
                     | Register.SelectAccountByEmail m _ => [m]
                     | _ => []
                     end) t.

(** The account ids handed to [setRefreshToken]. *)
Definition refreshed (t : list Register.Event) : list string :=
  flat_map (fun e => match e with Register.SetRefreshToken i _ => [i] | _ => [] end) t.

(** The rows the backend returned for the insertions. *)
Definition returned (t : list Register.Event) : list (list Register.AccountData) :=
  flat_map (fun e => match e with
                     | Register.InsertAccount _ (Ok rows) => [rows]
                     | _ => []
                     end) t.

(** The property names of an object. *)
Definition keys (o : Obj) : list string := map fst o.

End RegisterLog.

Module ChangeLog.

Definition rejection (e : EmailChange.Event) : option Exn :=
  match e with
  | EmailChange.UpdateUser _ (Rejected x) => Some x
  | EmailChange.EmailSend _ (Rejected x) => Some x
  | _ => None
  end.

(** The user ids the handler asked the backend to update. *)
Definition targets (t : list EmailChange.Event) : list string :=
  flat_map (fun e => match e with
                     | EmailChange.UpdateUser v _ => [EmailChange.id v]
                     | _ => []
                     end) t.

End ChangeLog.

(** * Further deployments and requests *)

Module Scenario.

Definition with_registration
  (r : Register.RegistrationConfig) (c : Register.Config) : Register.Config := {|
  Register.REGISTRATION := r;
  Register.AUTHENTICATION := Register.AUTHENTICATION c;
  Register.APPLICATION := Register.APPLICATION c;
  Register.HEADERS := Register.HEADERS c
|}.

(** Registration for administrators only. *)
Definition admin_only : Register.Config :=
  with_registration
    {| Register.ADMIN_ONLY := true;
       Register.WHITELIST := false;
       Register.DEFAULT_USER_ROLE := "user";
       Register.DEFAULT_ALLOWED_USER_ROLES := ["user"];
       Register.ALLOWED_USER_ROLES := ["user"; "me"];
       Register.AUTO_ACTIVATE_NEW_USERS := false |}
    Sample.verifying.

(** Registration for whitelisted emails only. *)
Definition whitelisted : Register.Config :=
  with_registration
    {| Register.ADMIN_ONLY := false;
       Register.WHITELIST := true;
       Register.DEFAULT_USER_ROLE := "user";
       Register.DEFAULT_ALLOWED_USER_ROLES := ["user"];
       Register.ALLOWED_USER_ROLES := ["user"; "me"];
       Register.AUTO_ACTIVATE_NEW_USERS := false |}
    Sample.verifying.

(** Mail verification on, but no mail transport configured. *)
Definition no_smtp : Register.Config := {|
  Register.REGISTRATION := Register.REGISTRATION Sample.verifying;
  Register.AUTHENTICATION := Register.AUTHENTICATION Sample.verifying;
  Register.APPLICATION :=
    {| Register.HASURA_GRAPHQL_ADMIN_SECRET := Some "secret";
       Register.EMAILS_ENABLED := false;
       Register.SERVER_URL := "https://auth.example.com";
       Register.APP_URL := "https://app.example.com" |};
  Register.HEADERS := Register.HEADERS Sample.verifying
|}.

(** Magic links switched off. *)
Definition no_magic_link : Register.Config := {|
  Register.REGISTRATION := Register.REGISTRATION Sample.verifying;
  Register.AUTHENTICATION :=
    {| Register.VERIFY_EMAILS := true; Register.MAGIC_LINK_ENABLED := false |};
  Register.APPLICATION := Register.APPLICATION Sample.verifying;
  Register.HEADERS := Register.HEADERS Sample.verifying
|}.

Definition with_services
  (allowed : string -> Result bool)
  (insert : Register.AccountInsertInput -> Result (list Register.AccountData))
  (send : Email -> Result unit)
  : Register.World := {|
  Register.isAllowedEmail := allowed;
  Register.selectAccountByEmail := Register.selectAccountByEmail Sample.world;
  Register.isCompromisedPassword := Register.isCompromisedPassword Sample.world;
  Register.hashPassword := Register.hashPassword Sample.world;
  Register.getGravatarUrl := Register.getGravatarUrl Sample.world;
  Register.request_insertAccount := insert;
  Register.emailClient_send := send;
  Register.setRefreshToken := Register.setRefreshToken Sample.world;
  Register.createHasuraJwt := Register.createHasuraJwt Sample.world;
  Register.newJwtExpiry := Register.newJwtExpiry Sample.world;
  Register.uuidv4 := Register.uuidv4 Sample.world;
  Register.Date_now := Register.Date_now Sample.world;
  Register.toISOString := Register.toISOString Sample.world;
  Register.isRegularLogin := Register.isRegularLogin Sample.world;
  Register.isMagicLinkLogin := Register.isMagicLinkLogin Sample.world;
  Register.isMagicLinkRegister := Register.isMagicLinkRegister Sample.world
|}.

(** Only addresses at example.org are on the whitelist. *)
Definition gated : Register.World :=
  with_services
    (fun e => Ok (String.eqb e "grace@example.org"))
    (Register.request_insertAccount Sample.world)
    (Register.emailClient_send Sample.world).

(** A backend whose mutation returns no row. *)
Definition silent_backend : Register.World :=
  with_services
    (Register.isAllowedEmail Sample.world)
    (fun _ => Ok [])
    (Register.emailClient_send Sample.world).

(** A mail transport that is down. *)
Definition mail_down : Register.World :=
  with_services
    (Register.isAllowedEmail Sample.world)
    (Register.request_insertAccount Sample.world)
    (fun _ => Rejected (Error "ECONNREFUSED")).

(** A request with a wrong admin secret. *)
Definition intruder : Register.Request := {|
  Register.req_headers := [("x-admin-secret", "guess")];
  Register.req_body := Register.req_body Sample.carol_password
|}.

(** [carol] with the password that the check rejects. *)
Definition carol_weak : Register.Request :=
  Sample.register "carol@example.com" (Some "password") None.

(** [carol] giving the name she wants to be shown. *)
Definition carol_named : Register.Request := {|
  Register.req_headers := [];
  Register.req_body :=
    {| Register.body_email := "carol@example.com";
       Register.body_password := Some "hunter22";
       Register.body_user_data := Some [("display_name", JStr "Carol")];
       Register.body_register_options := None;
       Register.body_locale := Some "en" |}
|}.

(** The account [carol]'s registration inserts, and the row it becomes. *)
Definition carol_input : Register.AccountInsertInput := {|
  Register.email := "carol@example.com";
  Register.password_hash := Some "$2a$10$hunter22";
  Register.ticket := Sample.uuid;
  Register.ticket_expires_at := "2023-11-14T23:13:20.000Z";
  Register.active := false;
  Register.locale := Some "en";
  Register.default_role := "user";
  Register.account_roles_data := [{| Register.role := "user" |}];
  Register.user_data :=
    [("display_name", JStr "carol@example.com"); ("avatar_url", JUndefined)]
|}.

(** What [carol_named] inserts: the name she gave replaces the default. *)
Definition carol_named_input : Register.AccountInsertInput := {|
  Register.email := "carol@example.com";
  Register.password_hash := Some "$2a$10$hunter22";
  Register.ticket := Sample.uuid;
  Register.ticket_expires_at := "2023-11-14T23:13:20.000Z";
  Register.active := false;
  Register.locale := Some "en";
  Register.default_role := "user";
  Register.account_roles_data := [{| Register.role := "user" |}];
  Register.user_data :=
    [("display_name", JStr "Carol"); ("avatar_url", JUndefined)]
|}.

(** The activation mail of [carol]'s registration. *)
Definition carol_mail : Email := {|
  template := "activate-account";
  message :=
    {| to := "carol@example.com";
       headers := [("x-ticket", {| prepared := true; value := Sample.uuid |})] |};
  locals := [("display_name", JStr "carol@example.com");
             ("ticket", JStr Sample.uuid);
             ("url", JStr "https://auth.example.com");
             ("locale", JStr "en")]
|}.

(** An email-change deployment whose mail transport is down. *)
Definition change_mail_down : EmailChange.World := {|
  EmailChange.uuidv4 := Sample.uuid;
  EmailChange.Date_now := Sample.now;
  EmailChange.gqlSdk_updateUser := EmailChange.gqlSdk_updateUser Sample.change_world;
  EmailChange.emailClient_send := fun _ => Rejected (Error "ECONNREFUSED")
|}.

(** A request that the authentication middleware did not fill in. *)
Definition anonymous_change : EmailChange.Request := {|
  EmailChange.req_body := EmailChange.req_body Sample.bob_change;
  EmailChange.req_auth := None
|}.

End Scenario.

(** * Symbolic execution

    A handler run is evaluated step by step; wherever the next step waits
    for a configuration flag or for the answer of an external call, the
    proof splits on it.  [exec E] does this to the left-hand side of an
    equation [E : handler ... = (c, t)]. *)

Ltac waiting_for t :=
  lazymatch t with
  | match ?x with _ => _ end => waiting_for x
  | _ => t
  end.

Ltac exec E :=
  repeat (
    cbv beta iota zeta delta [bind when await emit ret return_ throw app] in E;
    lazymatch type of E with
    | (match ?x with _ => _ end) = _ =>
        let y := waiting_for x in destruct y eqn:?; try congruence
    end).

Ltac unnegate :=
  repeat match goal with
    | H : negb _ = true |- _ => apply negb_true_iff in H
    | H : negb _ = false |- _ => apply negb_false_iff in H
    end.

(** Head normal form of the left-hand side of [E]. *)
Ltac head_normal E :=
  lazymatch type of E with
  | ?l = ?r =>
      let l' := eval lazy head beta iota zeta delta
                  [bind when await emit ret return_ throw] in l in
      change (l' = r) in E
  end.

(** [exec] with the continuation of the run left folded until it is
    reached. *)
Ltac exec_head E :=
  repeat (
    head_normal E;
    lazymatch type of E with
    | (match ?x with _ => _ end) = _ =>
        let y := waiting_for x in destruct y eqn:?
    end);
  cbv beta iota zeta delta [bind when await emit ret return_ throw app] in E.

(** The same from the start: name the run of a handler, execute it, and
    leave one goal per way the run can go. *)
Ltac open_register run :=
  unfold outcome, trace;
  let c := fresh "c" in
  let t := fresh "t" in
  let E := fresh "E" in
  destruct run as [c t] eqn:E;
  unfold Register.registerAccount in E;
  exec_head E;
  injection E as <- <-; cbn; unnegate.

Ltac open_change run :=
  unfold outcome, trace;
  let c := fresh "c" in
  let t := fresh "t" in
  let E := fresh "E" in
  destruct run as [c t] eqn:E;
  unfold EmailChange.userEmailChange in E;
  exec E;
  injection E as <- <-; cbn.

Ltac split_ors :=
  unfold unauthorized, badRequest in *;
  repeat match goal with H : _ \/ _ |- _ => destruct H as [H|H] end.

(** * Properties of the registration handler *)

Section RegisterFacts.
Variable config : Register.Config.
Variable W : Register.World.
Variable req : Register.Request.

Local Abbreviation body := (Register.req_body req).
Local Abbreviation the_run := (Register.registerAccount config W req).

(** Whatever reaches the backend as a new account has passed every check of
    the handler, and is built from the request as follows. *)
Lemma inserted_account (a : Register.AccountInsertInput) :
  In a (Register.inserted (trace the_run)) ->
  Register.inserted (trace the_run) = [a]
  /\ Register.selectAccountByEmail W (Register.body_email body) = Ok None
  /\ includes (Register.resolved_allowed_roles config body)
              (Register.resolved_default_role config body) = true
  /\ every (fun role => includes (Register.ALLOWED_USER_ROLES (Register.REGISTRATION config)) role)
           (Register.resolved_allowed_roles config body) = true
  /\ Register.email a = Register.body_email body
  /\ Register.ticket a = Register.uuidv4 W
  /\ Register.ticket_expires_at a
     = Register.toISOString W (Register.Date_now W + 60 * 60 * 1000)
  /\ Register.password_hash a
     = (if Register.isRegularLogin W body
        then match Register.hashPassword W (Register.body_password body) with
             | Ok h => Some h
             | Rejected _ => None
             end
        else None)
  /\ Register.default_role a = Register.resolved_default_role config body
  /\ Register.account_roles_data a
     = map Register.Build_AccountRole (Register.resolved_allowed_roles config body)
  /\ Register.active a
     = Register.AUTO_ACTIVATE_NEW_USERS (Register.REGISTRATION config).
Proof.
  destruct the_run as [c t] eqn:E. unfold Register.registerAccount in E.
  exec E.
  all: injection E as <- <-; cbn.
  all: intros H; try contradiction.
  all: destruct H as [<-|[]]; cbn.
  all: repeat split; try reflexivity; try (apply negb_false_iff; assumption).
Qed.

Lemma no_member_nil {A : Type} (l : list A) : (forall x, ~ In x l) -> l = [].
Proof.
  destruct l as [|x l]; [reflexivity|].
  intros H. exfalso. apply (H x). left. reflexivity.
Qed.

(** A session is sent only after an insertion. *)
Lemma session_after_insert (s : Register.Session) :
  outcome the_run = Responded (Send s) ->
  exists a, Register.inserted (trace the_run) = [a].
Proof.
  unfold outcome, trace.
  destruct the_run as [c t] eqn:E. unfold Register.registerAccount in E.
  exec E.
  all: injection E as <- <-; cbn.
  all: intros H; try discriminate.
  all: eexists; reflexivity.
Qed.

(** Where a request that has passed the earlier checks is stopped by the
    role checks. *)
Lemma role_check_outcome :
  Register.passes_earlier_checks config W req = true ->
  (includes (Register.resolved_allowed_roles config body)
            (Register.resolved_default_role config body) = false ->
   outcome the_run
   = Responded (badRequest "Default role must be part of allowed roles"))
  /\ (includes (Register.resolved_allowed_roles config body)
               (Register.resolved_default_role config body) = true ->
      every (fun role => includes (Register.ALLOWED_USER_ROLES (Register.REGISTRATION config)) role)
            (Register.resolved_allowed_roles config body) = false ->
      outcome the_run
      = Responded (badRequest "Allowed roles must be a subset of ALLOWED_ROLES")).
Proof.
  unfold Register.passes_earlier_checks, outcome.
  destruct the_run as [c t] eqn:E. unfold Register.registerAccount in E.
  exec E.
  all: injection E as <- <-; cbn.
  all: intros P; split; intros; try reflexivity.
  all: unnegate; try congruence.
  all: revert P;
       repeat match goal with H : ?x = _ |- _ => rewrite H end;
       cbn; rewrite ?andb_false_r; try discriminate.
Qed.

(** Without a regular login the password helpers are left alone. *)
Lemma password_check_needs_regular_login :
  Register.isRegularLogin W body = false ->
  Register.password_checks (trace the_run) = []
  /\ outcome the_run <> Responded (badRequest "Password is too weak").
Proof.
  unfold outcome, trace.
  destruct the_run as [c t] eqn:E. unfold Register.registerAccount in E.
  exec E.
  all: injection E as <- <-; cbn.
  all: intros R; try discriminate R.
  all: split; [reflexivity | discriminate].
Qed.

(** C3 (amended).  A request whose resolved default role is not among its
    resolved allowed roles never inserts an account and never obtains a
    session; when it gets past the checks that come first (admin secret,
    whitelist, existing account, password) it is answered with the 400
    response "Default role must be part of allowed roles". *)
Theorem default_role_outside_allowed_roles :
  includes (Register.resolved_allowed_roles config body)
           (Register.resolved_default_role config body) = false ->
  Register.inserted (trace the_run) = []
  /\ (forall s, outcome the_run <> Responded (Send s))
  /\ (Register.passes_earlier_checks config W req = true ->
      outcome the_run
      = Responded (badRequest "Default role must be part of allowed roles")
      /\ is_4xx (B:=Register.Session)
                (badRequest "Default role must be part of allowed roles") = true).
Proof.
  intros Hrole.
  assert (Hnone : Register.inserted (trace the_run) = []).
  { apply no_member_nil. intros a Ha.
    destruct (inserted_account a Ha) as (_ & _ & Hin & _). congruence. }
  split; [exact Hnone|]. split.
  - intros s Hs. destruct (session_after_insert s Hs) as [a Ha].
    rewrite Hnone in Ha. discriminate Ha.
  - intros Hpass. split; [|reflexivity].
    apply (proj1 (role_check_outcome Hpass)). exact Hrole.
Qed.

(** C4 (amended).  A request whose resolved allowed roles are not all among
    [REGISTRATION.ALLOWED_USER_ROLES] never inserts an account and never
    obtains a session; when it gets past the checks that come first (admin
    secret, whitelist, existing account, password, and the default role
    being one of the allowed roles) it is answered with the 400 response
    "Allowed roles must be a subset of ALLOWED_ROLES". *)
Theorem allowed_roles_outside_configured_roles :
  every (fun role =>
           includes (Register.ALLOWED_USER_ROLES (Register.REGISTRATION config)) role)
        (Register.resolved_allowed_roles config body) = false ->
  Register.inserted (trace the_run) = []
  /\ (forall s, outcome the_run <> Responded (Send s))
  /\ (Register.passes_earlier_checks config W req = true ->
      includes (Register.resolved_allowed_roles config body)
               (Register.resolved_default_role config body) = true ->
      outcome the_run
      = Responded (badRequest "Allowed roles must be a subset of ALLOWED_ROLES")
      /\ is_4xx (B:=Register.Session)
                (badRequest "Allowed roles must be a subset of ALLOWED_ROLES") = true).
Proof.
  intros Hroles.
  assert (Hnone : Register.inserted (trace the_run) = []).
  { apply no_member_nil. intros a Ha.
    destruct (inserted_account a Ha) as (_ & _ & _ & Hsub & _). congruence. }
  split; [exact Hnone|]. split.
  - intros s Hs. destruct (session_after_insert s Hs) as [a Ha].
    rewrite Hnone in Ha. discriminate Ha.
  - intros Hpass Hdef. split; [|reflexivity].
    apply (proj2 (role_check_outcome Hpass)); assumption.
Qed.

(** C5.  A registration that succeeds answers with a session.  With
    auto-activation on, or mail verification off, the session holds a JWT,
    its expiry and a refresh token; with auto-activation off and mail
    verification on, [jwt_token] and [jwt_expires_in] are null and there is
    no refresh token. *)
Theorem registration_session (s : Register.Session) :
  outcome the_run = Responded (Send s) ->
  (Register.AUTO_ACTIVATE_NEW_USERS (Register.REGISTRATION config)
   || negb (Register.VERIFY_EMAILS (Register.AUTHENTICATION config)) = true ->
   exists account token,
     Register.jwt_token s = Some (Register.createHasuraJwt W account)
     /\ Register.jwt_expires_in s = Some (Register.newJwtExpiry W)
     /\ Register.refresh_token s = Some token
     /\ Register.setRefreshToken W (Register.account_id account) = Ok token)
  /\ (negb (Register.AUTO_ACTIVATE_NEW_USERS (Register.REGISTRATION config))
      && Register.VERIFY_EMAILS (Register.AUTHENTICATION config) = true ->
      Register.jwt_token s = None
      /\ Register.jwt_expires_in s = None
      /\ Register.refresh_token s = None).
Proof.
  unfold outcome.
  destruct the_run as [c t] eqn:E. unfold Register.registerAccount in E.
  exec E.
  all: injection E as <- <-; cbn.
  all: intros R; try discriminate R.
  all: injection R as <-; cbn.
  all: repeat match goal with
         | H : context [Register.AUTO_ACTIVATE_NEW_USERS _] |- _ => revert H
         end.
  all: destruct (Register.AUTO_ACTIVATE_NEW_USERS (Register.REGISTRATION config)),
                (Register.VERIFY_EMAILS (Register.AUTHENTICATION config)).
  all: cbn; intros; try discriminate.
  all: split; intros; try discriminate; eauto 10.
Qed.

(** C6.  When [selectAccountByEmail] returns an account, the handler answers
    with the 400 response "Account already exists"; nothing is inserted (so
    no ticket is stored) and no mail is sent. *)
Theorem existing_account_rejected (e : string) (found : Register.AccountData) :
  In (Register.SelectAccountByEmail e (Ok (Some found))) (trace the_run) ->
  outcome the_run = Responded (badRequest "Account already exists")
  /\ is_4xx (B:=Register.Session) (badRequest "Account already exists") = true
  /\ Register.inserted (trace the_run) = []
  /\ Register.sent (trace the_run) = [].
Proof.
  unfold outcome, trace.
  destruct the_run as [c t] eqn:E. unfold Register.registerAccount in E.
  exec E.
  all: injection E as <- <-; cbn.
  all: intros H;
       repeat match goal with H : _ \/ _ |- _ => destruct H as [H|H] end;
       try congruence; try contradiction.
  all: repeat split; reflexivity.
Qed.

(** C9.  A request that is not a regular login never has its password
    checked and is never answered "Password is too weak"; the account it
    inserts has a null [password_hash].  The answer "Password is too weak"
    is given to regular logins only. *)
Theorem password_only_for_regular_login :
  (Register.isRegularLogin W body = false ->
   (forall a, In a (Register.inserted (trace the_run)) ->
              Register.password_hash a = None)
   /\ (forall s, outcome the_run = Responded (Send s) ->
                 exists a, Register.inserted (trace the_run) = [a]
                           /\ Register.password_hash a = None)
   /\ Register.password_checks (trace the_run) = []
   /\ outcome the_run <> Responded (badRequest "Password is too weak"))
  /\ (outcome the_run = Responded (badRequest "Password is too weak") ->
      Register.isRegularLogin W body = true).
Proof.
  assert (Hnull : Register.isRegularLogin W body = false ->
                  forall a, In a (Register.inserted (trace the_run)) ->
                            Register.password_hash a = None).
  { intros R a Ha.
    destruct (inserted_account a Ha) as (_ & _ & _ & _ & _ & _ & _ & Hp & _).
    rewrite R in Hp. exact Hp. }
  split.
  - intros R.
    destruct (password_check_needs_regular_login R) as [Hc Ho].
    repeat split; auto.
    intros s Hs. destruct (session_after_insert s Hs) as [a Ha].
    exists a. split; [exact Ha|].
    apply (Hnull R). rewrite Ha. left. reflexivity.
  - intros Ho. destruct (Register.isRegularLogin W body) eqn:R; [reflexivity|].
    destruct (password_check_needs_regular_login R) as [_ Hn].
    contradiction.
Qed.

End RegisterFacts.

(** The route runs the handler or answers on its own, with no call made. *)
Lemma register_route_cases
  (config : Register.Config) (W : Register.World) (req : Register.Request) :
  Register.register_route config W req = Register.registerAccount config W req
  \/ Register.register_route config W req
     = ret (badRequest "Magic link registration is disabled").
Proof.
  unfold Register.register_route.
  destruct (_ && _); [right | left]; reflexivity.
Qed.

(** * Properties of the email-change handler *)

Section EmailChangeFacts.
Variable ENV : EmailChange.Env.
Variable EMAIL_TYPES : EmailChange.EmailTypes.
Variable W : EmailChange.World.
Variable req : EmailChange.Request.

Local Abbreviation the_change :=
  (EmailChange.userEmailChange ENV EMAIL_TYPES W req).

(** The ticket of this request. *)
Local Abbreviation the_ticket :=
  (EmailChange.CONFIRM_CHANGE EMAIL_TYPES ++ ":" ++ EmailChange.uuidv4 W).

(** What the handler asks the backend to store. *)
Lemma stored_update (u : EmailChange.UserSetInput) :
  In u (EmailChange.stored (trace the_change)) ->
  EmailChange.stored (trace the_change) = [u]
  /\ EmailChange.ticket u = the_ticket
  /\ EmailChange.ticketExpiresAt u
     = EmailChange.generateTicketExpiresAt (EmailChange.Date_now W) (60 * 60)
  /\ EmailChange.newEmail u = EmailChange.body_newEmail (EmailChange.req_body req).
Proof.
  unfold trace.
  destruct the_change as [c t] eqn:E. unfold EmailChange.userEmailChange in E.
  exec E.
  all: injection E as <- <-; cbn.
  all: intros H; try contradiction.
  all: destruct H as [<-|[]]; cbn.
  all: repeat split; reflexivity.
Qed.

(** What the handler hands to the mail transport. *)
Lemma sent_mail (m : Email) :
  In m (EmailChange.sent (trace the_change)) ->
  EmailChange.sent (trace the_change) = [m]
  /\ to (message m) = EmailChange.body_newEmail (EmailChange.req_body req)
  /\ header_value "x-ticket" (message m) = Some the_ticket
  /\ obj_get "ticket" (locals m) = Some (JStr the_ticket)
  /\ obj_get "link" (locals m)
     = Some (JStr (EmailChange.AUTH_SERVER_URL ENV
                   ++ "/verify?&ticket=" ++ the_ticket
                   ++ "&type=" ++ EmailChange.CONFIRM_CHANGE EMAIL_TYPES
                   ++ "&redirectTo="
                   ++ EmailChange.redirectTo
                        (EmailChange.body_options (EmailChange.req_body req)))).
Proof.
  unfold trace.
  destruct the_change as [c t] eqn:E. unfold EmailChange.userEmailChange in E.
  exec E.
  all: injection E as <- <-; cbn.
  all: intros H; try contradiction.
  all: destruct H as [<-|[]]; cbn.
  all: repeat split; reflexivity.
Qed.

(** The only run that answers: the update returned the user, then the
    transport accepted the mail. *)
Lemma answered_run (r : Response string) :
  outcome the_change = Responded r ->
  r = Send EmailChange.ReasonPhrases_OK
  /\ exists v u m,
       trace the_change
       = [EmailChange.UpdateUser v (Ok (Some u)); EmailChange.EmailSend m (Ok tt)].
Proof.
  unfold outcome, trace.
  destruct the_change as [c t] eqn:E. unfold EmailChange.userEmailChange in E.
  exec E.
  all: injection E as <- <-; cbn.
  all: intros R; try discriminate R.
  injection R as <-. split; [reflexivity|].
  match goal with u : unit |- _ => destruct u end.
  eauto.
Qed.

(** C7.  When the update returns no user the handler throws
    [Error "Unable to get user"] and hands nothing to the mail transport;
    the answer OK is given only after the update returned the user and the
    transport accepted the mail. *)
Theorem email_change_needs_user_and_mail :
  (forall v, In (EmailChange.UpdateUser v (Ok None)) (trace the_change) ->
             outcome the_change = Failed (Error "Unable to get user")
             /\ EmailChange.sent (trace the_change) = [])
  /\ (outcome the_change = Responded (Send EmailChange.ReasonPhrases_OK) ->
      exists v u m,
        trace the_change
        = [EmailChange.UpdateUser v (Ok (Some u));
           EmailChange.EmailSend m (Ok tt)]
        /\ EmailChange.updated (trace the_change) = [EmailChange.user v]
        /\ EmailChange.delivered (trace the_change) = [m]).
Proof.
  split.
  - unfold outcome, trace.
    destruct the_change as [c t] eqn:E. unfold EmailChange.userEmailChange in E.
    exec E.
    all: injection E as <- <-; cbn.
    all: intros v H;
         repeat match goal with H : _ \/ _ |- _ => destruct H as [H|H] end;
         try congruence; try contradiction.
    all: split; reflexivity.
  - intros H. destruct (answered_run _ H) as (_ & v & u & m & Ht).
    exists v, u, m. rewrite Ht. repeat split.
Qed.

(** C8.  In a successful run the ticket stored on the user record is the
    ticket of the mail: the one in the verification link, the one in the
    [x-ticket] header and the one handed to the template. *)
Theorem stored_ticket_is_mailed_ticket :
  outcome the_change = Responded (Send EmailChange.ReasonPhrases_OK) ->
  exists u m,
    EmailChange.stored (trace the_change) = [u]
    /\ EmailChange.sent (trace the_change) = [m]
    /\ header_value "x-ticket" (message m) = Some (EmailChange.ticket u)
    /\ obj_get "ticket" (locals m) = Some (JStr (EmailChange.ticket u))
    /\ obj_get "link" (locals m)
       = Some (JStr (EmailChange.AUTH_SERVER_URL ENV
                     ++ "/verify?&ticket=" ++ EmailChange.ticket u
                     ++ "&type=" ++ EmailChange.CONFIRM_CHANGE EMAIL_TYPES
                     ++ "&redirectTo="
                     ++ EmailChange.redirectTo
                          (EmailChange.body_options (EmailChange.req_body req)))).
Proof.
  intros H. destruct (answered_run _ H) as (_ & v & u0 & m & Ht).
  assert (Hu : In (EmailChange.user v) (EmailChange.stored (trace the_change)))
    by (rewrite Ht; left; reflexivity).
  assert (Hm : In m (EmailChange.sent (trace the_change)))
    by (rewrite Ht; left; reflexivity).
  destruct (stored_update _ Hu) as (Hs & Hticket & _).
  destruct (sent_mail _ Hm) as (Hsent & _ & Hx & Hl & Hlink).
  exists (EmailChange.user v), m.
  rewrite Hticket. auto.
Qed.

(** C10.  Every mail of the handler is addressed to [newEmail] of the request
    body, and a successful run has sent exactly one. *)
Theorem confirmation_goes_to_new_address :
  (forall m, In m (EmailChange.sent (trace the_change)) ->
             to (message m) = EmailChange.body_newEmail (EmailChange.req_body req))
  /\ (outcome the_change = Responded (Send EmailChange.ReasonPhrases_OK) ->
      exists m, EmailChange.sent (trace the_change) = [m]
                /\ EmailChange.delivered (trace the_change) = [m]
                /\ to (message m)
                   = EmailChange.body_newEmail (EmailChange.req_body req)).
Proof.
  split.
  - intros m Hm. apply (sent_mail m Hm).
  - intros H. destruct (answered_run _ H) as (_ & v & u & m & Ht).
    assert (Hm : In m (EmailChange.sent (trace the_change)))
      by (rewrite Ht; left; reflexivity).
    exists m. rewrite Ht. repeat split.
    apply (sent_mail m Hm).
Qed.

End EmailChangeFacts.

(** * The ticket across both handlers *)

Lemma prefix_tag (tag rest : string) :
  String.prefix (tag ++ ":") (tag ++ ":" ++ rest) = true.
Proof.
  induction tag as [|c tag IH]; cbn -[ascii_dec].
  - destruct rest; reflexivity.
  - destruct (ascii_dec c c) as [_|N]; [exact IH | contradiction].
Qed.

(** A tagged ticket contains a [:]. *)
Lemma tagged_has_colon (tag t : string) :
  String.prefix (tag ++ ":") t = true -> type_tag t <> None.
Proof.
  revert t. induction tag as [|c tag IH]; intros [|d t]; cbn -[ascii_dec]; intros H;
    try discriminate H.
  - destruct (Ascii.eqb d ":") eqn:D; [discriminate|].
    destruct (ascii_dec ":" d) as [<-|]; [|discriminate H].
    discriminate D.
  - destruct (ascii_dec c d) as [<-|]; [|discriminate H].
    specialize (IH t H).
    destruct (Ascii.eqb c ":"); [discriminate|].
    destruct (type_tag t); [discriminate | contradiction].
Qed.

Lemma untagged (t : string) : type_tag t = None -> ~ has_type_tag t.
Proof.
  intros H [tag P]. exact (tagged_has_colon tag t P H).
Qed.

(** C1 (amended).  Every ticket the email-change handler stores is the type
    tag [EMAIL_TYPES.CONFIRM_CHANGE], a [:], and the random identifier;
    every ticket the registration handler stores is the random identifier
    alone. *)
Theorem ticket_type_tag
  (ENV : EmailChange.Env) (EMAIL_TYPES : EmailChange.EmailTypes)
  (C : EmailChange.World) (change : EmailChange.Request)
  (config : Register.Config) (W : Register.World) (req : Register.Request) :
  (forall u,
      In u (EmailChange.stored
              (trace (EmailChange.userEmailChange ENV EMAIL_TYPES C change))) ->
      EmailChange.ticket u
      = EmailChange.CONFIRM_CHANGE EMAIL_TYPES ++ ":" ++ EmailChange.uuidv4 C
      /\ String.prefix (EmailChange.CONFIRM_CHANGE EMAIL_TYPES ++ ":")
                       (EmailChange.ticket u) = true
      /\ has_type_tag (EmailChange.ticket u))
  /\ (forall a,
         In a (Register.inserted (trace (Register.registerAccount config W req))) ->
         Register.ticket a = Register.uuidv4 W).
Proof.
  split.
  - intros u Hu.
    destruct (stored_update ENV EMAIL_TYPES C change u Hu) as (_ & -> & _).
    split; [reflexivity|].
    split; [apply prefix_tag|].
    exists (EmailChange.CONFIRM_CHANGE EMAIL_TYPES). apply prefix_tag.
  - intros a Ha.
    apply (inserted_account config W req a Ha).
Qed.

(** A request that gets past every check of the handler is inserted. *)
Lemma checked_request_is_inserted
  (config : Register.Config) (W : Register.World) (req : Register.Request) :
  Register.passes_earlier_checks config W req = true ->
  includes (Register.resolved_allowed_roles config (Register.req_body req))
           (Register.resolved_default_role config (Register.req_body req)) = true ->
  every (fun role =>
           includes (Register.ALLOWED_USER_ROLES (Register.REGISTRATION config)) role)
        (Register.resolved_allowed_roles config (Register.req_body req)) = true ->
  exists a, Register.inserted (trace (Register.registerAccount config W req)) = [a].
Proof.
  unfold Register.passes_earlier_checks.
  open_register (Register.registerAccount config W req).
  all: intros P I S; try (eexists; reflexivity); try congruence.
  all: revert P;
       repeat match goal with H : ?x = _ |- _ => rewrite H end;
       cbn; rewrite ?andb_false_r; discriminate.
Qed.

(** An authenticated request has its ticket stored, whatever the backend
    and the mail transport answer. *)
Lemma authenticated_change_is_stored
  (ENV : EmailChange.Env) (EMAIL_TYPES : EmailChange.EmailTypes)
  (C : EmailChange.World) (change : EmailChange.Request)
  (auth : EmailChange.RequestAuth) :
  EmailChange.req_auth change = Some auth ->
  exists r rest,
    trace (EmailChange.userEmailChange ENV EMAIL_TYPES C change)
    = EmailChange.UpdateUser
        {| EmailChange.id := EmailChange.userId auth;
           EmailChange.user :=
             {| EmailChange.ticket :=
                  EmailChange.CONFIRM_CHANGE EMAIL_TYPES ++ ":"
                  ++ EmailChange.uuidv4 C;
                EmailChange.ticketExpiresAt :=
                  EmailChange.generateTicketExpiresAt
                    (EmailChange.Date_now C) (60 * 60);
                EmailChange.newEmail :=
                  EmailChange.body_newEmail (EmailChange.req_body change) |} |}
        r :: rest
    /\ EmailChange.stored rest = [].
Proof.
  open_change (EmailChange.userEmailChange ENV EMAIL_TYPES C change).
  all: intros A; try discriminate A; injection A as <-.
  all: do 2 eexists; split; reflexivity.
Qed.

(** C2.  Both handlers store the ticket together with its expiry, and the
    expiry is the moment 60 minutes after the handler read the clock: as an
    ISO string in the registration, as a date in the email change.  And
    both do store it: a registration that gets past every check, and every
    registration that succeeds, inserts exactly one account, with the
    ticket and this expiry; an authenticated email change stores exactly
    one update, with the ticket, the expiry that [generateTicketExpiresAt]
    gives for a lifetime of [60 * 60] seconds, and the new email. *)
Theorem ticket_expiry_sixty_minutes
  (ENV : EmailChange.Env) (EMAIL_TYPES : EmailChange.EmailTypes)
  (C : EmailChange.World) (change : EmailChange.Request)
  (config : Register.Config) (W : Register.World) (req : Register.Request) :
  (forall a,
      In a (Register.inserted (trace (Register.registerAccount config W req))) ->
      Register.ticket a = Register.uuidv4 W
      /\ Register.ticket_expires_at a
         = Register.toISOString W (Register.Date_now W + minutes 60))
  /\ (forall u,
         In u (EmailChange.stored
                 (trace (EmailChange.userEmailChange ENV EMAIL_TYPES C change))) ->
         EmailChange.ticket u
         = EmailChange.CONFIRM_CHANGE EMAIL_TYPES ++ ":" ++ EmailChange.uuidv4 C
         /\ EmailChange.ticketExpiresAt u = EmailChange.Date_now C + minutes 60)
  /\ (Register.passes_earlier_checks config W req = true ->
      includes (Register.resolved_allowed_roles config (Register.req_body req))
               (Register.resolved_default_role config (Register.req_body req))
      = true ->
      every (fun role =>
               includes (Register.ALLOWED_USER_ROLES (Register.REGISTRATION config))
                        role)
            (Register.resolved_allowed_roles config (Register.req_body req))
      = true ->
      exists a,
        Register.inserted (trace (Register.registerAccount config W req)) = [a]
        /\ Register.ticket a = Register.uuidv4 W
        /\ Register.ticket_expires_at a
           = Register.toISOString W (Register.Date_now W + minutes 60))
  /\ (forall s,
         outcome (Register.registerAccount config W req) = Responded (Send s) ->
         exists a,
           Register.inserted (trace (Register.registerAccount config W req)) = [a]
           /\ Register.ticket a = Register.uuidv4 W
           /\ Register.ticket_expires_at a
              = Register.toISOString W (Register.Date_now W + minutes 60))
  /\ (forall auth,
         EmailChange.req_auth change = Some auth ->
         EmailChange.stored
           (trace (EmailChange.userEmailChange ENV EMAIL_TYPES C change))
         = [{| EmailChange.ticket :=
                 EmailChange.CONFIRM_CHANGE EMAIL_TYPES ++ ":"
                 ++ EmailChange.uuidv4 C;
               EmailChange.ticketExpiresAt :=
                 EmailChange.generateTicketExpiresAt
                   (EmailChange.Date_now C) (60 * 60);
               EmailChange.newEmail :=
                 EmailChange.body_newEmail (EmailChange.req_body change) |}]
         /\ EmailChange.generateTicketExpiresAt (EmailChange.Date_now C) (60 * 60)
            = EmailChange.Date_now C + minutes 60).
Proof.
  assert (Hreg : forall a,
    In a (Register.inserted (trace (Register.registerAccount config W req))) ->
    Register.ticket a = Register.uuidv4 W
    /\ Register.ticket_expires_at a
       = Register.toISOString W (Register.Date_now W + minutes 60)).
  { intros a Ha.
    destruct (inserted_account config W req a Ha)
      as (_ & _ & _ & _ & _ & Ht & Hx & _).
    split; [exact Ht | exact Hx]. }
  assert (Hone : forall a,
    Register.inserted (trace (Register.registerAccount config W req)) = [a] ->
    exists a',
      Register.inserted (trace (Register.registerAccount config W req)) = [a']
      /\ Register.ticket a' = Register.uuidv4 W
      /\ Register.ticket_expires_at a'
         = Register.toISOString W (Register.Date_now W + minutes 60)).
  { intros a Ha. exists a. split; [exact Ha|].
    apply Hreg. rewrite Ha. left. reflexivity. }
  split; [exact Hreg|]. split; [|split; [|split]].
  - intros u Hu.
    destruct (stored_update ENV EMAIL_TYPES C change u Hu) as (_ & Ht & Hx & _).
    split; [exact Ht | exact Hx].
  - intros P I S.
    destruct (checked_request_is_inserted config W req P I S) as [a Ha].
    exact (Hone a Ha).
  - intros s Hs.
    destruct (session_after_insert config W req s Hs) as [a Ha].
    exact (Hone a Ha).
  - intros auth Ha.
    destruct (authenticated_change_is_stored ENV EMAIL_TYPES C change auth Ha)
      as (r & rest & Ht & Hrest).
    split; [|reflexivity].
    unfold EmailChange.stored in *. rewrite Ht. cbn. rewrite Hrest.
    reflexivity.
Qed.

(** * The handlers at work *)

(** C1, as first stated, fails: the ticket that [carol]'s registration stores
    is the bare identifier, and no type tag is a prefix of it. *)
Lemma registration_ticket_is_untagged :
  map Register.ticket
      (Register.inserted
         (trace (Register.registerAccount
                   Sample.verifying Sample.world Sample.carol_password)))
  = ["110ec58a-a0f2-4ac4-8393-c866d813b8d1"]
  /\ ~ has_type_tag "110ec58a-a0f2-4ac4-8393-c866d813b8d1".
Proof.
  split; [reflexivity|]. apply untagged. reflexivity.
Qed.

Lemma ticket_type_tag_witness :
  has_type_tag (EmailChange.ticket Sample.bob_update)
  /\ map Register.ticket
         (Register.inserted
            (trace (Register.registerAccount
                      Sample.verifying Sample.world Sample.carol_password)))
     = [Register.uuidv4 Sample.world].
Proof.
  destruct (ticket_type_tag Sample.env Sample.email_types Sample.change_world
              Sample.bob_change
              Sample.verifying Sample.world Sample.carol_password) as [Hc Hr].
  split.
  - apply (Hc Sample.bob_update). simpl. left. reflexivity.
  - reflexivity.
Defined.

Lemma ticket_expiry_sixty_minutes_witness :
  EmailChange.stored
    (trace (EmailChange.userEmailChange
              Sample.env Sample.email_types Sample.change_world Sample.bob_change))
  = [{| EmailChange.ticket :=
          "emailConfirmChange:110ec58a-a0f2-4ac4-8393-c866d813b8d1";
        EmailChange.ticketExpiresAt := 1700000000000 + minutes 60;
        EmailChange.newEmail := "bob@new.example.com" |}]
  /\ EmailChange.ticketExpiresAt Sample.bob_update = Sample.now + minutes 60
  /\ exists a,
       Register.inserted
         (trace (Register.registerAccount
                   Sample.verifying Sample.world Sample.carol_password)) = [a]
       /\ Register.ticket a = "110ec58a-a0f2-4ac4-8393-c866d813b8d1"
       /\ Register.ticket_expires_at a
          = Sample.toISOString (1700000000000 + minutes 60)
       /\ Register.ticket_expires_at a = "2023-11-14T23:13:20.000Z".
Proof.
  destruct (ticket_expiry_sixty_minutes Sample.env Sample.email_types
              Sample.change_world Sample.bob_change
              Sample.verifying Sample.world Sample.carol_password)
    as (_ & Hc & Hr & _ & Hs).
  split; [exact (proj1 (Hs {| EmailChange.userId := "u-1" |} eq_refl))|].
  split.
  - apply (Hc Sample.bob_update).
    rewrite (proj1 (Hs {| EmailChange.userId := "u-1" |} eq_refl)).
    left. reflexivity.
  - destruct (Hr eq_refl eq_refl eq_refl) as (a & Hi & Ht & Hx).
    exists a. repeat split; assumption.
Defined.

(** C3, as first stated, fails: [alice]'s default role is not among her
    allowed roles, yet the answer is about her existing account. *)
Lemma default_role_check_comes_late :
  includes
    (Register.resolved_allowed_roles
       Sample.verifying (Register.req_body Sample.alice_again))
    (Register.resolved_default_role
       Sample.verifying (Register.req_body Sample.alice_again)) = false
  /\ outcome (Register.registerAccount
                Sample.verifying Sample.world Sample.alice_again)
     = Responded (badRequest "Account already exists")
  /\ outcome (Register.registerAccount
                Sample.verifying Sample.world Sample.alice_again)
     <> Responded (badRequest "Default role must be part of allowed roles").
Proof.
  split; [reflexivity|]. split; [reflexivity|]. discriminate.
Qed.

Lemma default_role_outside_allowed_roles_witness :
  Register.inserted
    (trace (Register.registerAccount Sample.verifying Sample.world Sample.dave))
  = []
  /\ outcome (Register.registerAccount Sample.verifying Sample.world Sample.dave)
     = Responded (badRequest "Default role must be part of allowed roles").
Proof.
  destruct (default_role_outside_allowed_roles
              Sample.verifying Sample.world Sample.dave) as (Hi & _ & Ho).
  - reflexivity.
  - split; [exact Hi|]. apply Ho. reflexivity.
Defined.

(** C4, as first stated, fails: [frank]'s allowed roles are not among the
    configured ones, yet the answer is about his default role. *)
Lemma allowed_roles_check_comes_late :
  every (fun role =>
           includes (Register.ALLOWED_USER_ROLES
                       (Register.REGISTRATION Sample.verifying)) role)
        (Register.resolved_allowed_roles
           Sample.verifying (Register.req_body Sample.frank)) = false
  /\ outcome (Register.registerAccount Sample.verifying Sample.world Sample.frank)
     = Responded (badRequest "Default role must be part of allowed roles")
  /\ outcome (Register.registerAccount Sample.verifying Sample.world Sample.frank)
     <> Responded (badRequest "Allowed roles must be a subset of ALLOWED_ROLES").
Proof.
  split; [reflexivity|]. split; [reflexivity|]. discriminate.
Qed.

Lemma allowed_roles_outside_configured_roles_witness :
  Register.inserted
    (trace (Register.registerAccount Sample.verifying Sample.world Sample.erin))
  = []
  /\ outcome (Register.registerAccount Sample.verifying Sample.world Sample.erin)
     = Responded (badRequest "Allowed roles must be a subset of ALLOWED_ROLES").
Proof.
  destruct (allowed_roles_outside_configured_roles
              Sample.verifying Sample.world Sample.erin) as (Hi & _ & Ho).
  - reflexivity.
  - split; [exact Hi|]. apply Ho; reflexivity.
Defined.

Lemma registration_session_witness :
  (exists account token,
      Register.jwt_token Sample.signed_in
      = Some (Register.createHasuraJwt Sample.world account)
      /\ Register.jwt_expires_in Sample.signed_in
         = Some (Register.newJwtExpiry Sample.world)
      /\ Register.refresh_token Sample.signed_in = Some token
      /\ Register.setRefreshToken Sample.world (Register.account_id account)
         = Ok token)
  /\ (Register.jwt_token Sample.pending = None
      /\ Register.jwt_expires_in Sample.pending = None
      /\ Register.refresh_token Sample.pending = None).
Proof.
  split.
  - apply (proj1 (registration_session
                    Sample.trusting Sample.world Sample.carol_magic
                    Sample.signed_in eq_refl)).
    reflexivity.
  - apply (proj2 (registration_session
                    Sample.verifying Sample.world Sample.carol_password
                    Sample.pending eq_refl)).
    reflexivity.
Defined.

Lemma existing_account_rejected_witness :
  outcome (Register.registerAccount Sample.verifying Sample.world Sample.alice_again)
  = Responded (badRequest "Account already exists")
  /\ is_4xx (B:=Register.Session) (badRequest "Account already exists") = true
  /\ Register.inserted
       (trace (Register.registerAccount
                 Sample.verifying Sample.world Sample.alice_again)) = []
  /\ Register.sent
       (trace (Register.registerAccount
                 Sample.verifying Sample.world Sample.alice_again)) = [].
Proof.
  apply (existing_account_rejected
           Sample.verifying Sample.world Sample.alice_again
           "alice@example.com" Sample.alice).
  simpl. left. reflexivity.
Defined.

Lemma password_only_for_regular_login_witness :
  map Register.password_hash
      (Register.inserted
         (trace (Register.registerAccount
                   Sample.verifying Sample.world Sample.carol_magic)))
  = [None]
  /\ Register.password_checks
       (trace (Register.registerAccount
                 Sample.verifying Sample.world Sample.carol_magic)) = []
  /\ Register.isRegularLogin Sample.world
       (Register.req_body
          (Sample.register "carol@example.com" (Some "password") None)) = true.
Proof.
  destruct (password_only_for_regular_login
              Sample.verifying Sample.world Sample.carol_magic)
    as [Hmagic _].
  destruct (Hmagic eq_refl) as (_ & _ & Hc & _).
  destruct (password_only_for_regular_login
              Sample.verifying Sample.world
              (Sample.register "carol@example.com" (Some "password") None))
    as [_ Hweak].
  split; [reflexivity|]. split; [exact Hc|]. apply Hweak. reflexivity.
Defined.

Lemma email_change_needs_user_and_mail_witness :
  (outcome (EmailChange.userEmailChange
              Sample.env Sample.email_types Sample.change_world Sample.ghost_change)
   = Failed (Error "Unable to get user")
   /\ EmailChange.sent
        (trace (EmailChange.userEmailChange
                  Sample.env Sample.email_types Sample.change_world
                  Sample.ghost_change)) = [])
  /\ EmailChange.updated
       (trace (EmailChange.userEmailChange
                 Sample.env Sample.email_types Sample.change_world
                 Sample.bob_change)) = [Sample.bob_update].
Proof.
  split.
  - eapply (proj1 (email_change_needs_user_and_mail
                     Sample.env Sample.email_types Sample.change_world
                     Sample.ghost_change)).
    simpl. left. reflexivity.
  - destruct (proj2 (email_change_needs_user_and_mail
                       Sample.env Sample.email_types Sample.change_world
                       Sample.bob_change) eq_refl) as (v & u & m & _ & _ & _).
    reflexivity.
Defined.

Lemma stored_ticket_is_mailed_ticket_witness :
  exists u m,
    EmailChange.stored
      (trace (EmailChange.userEmailChange
                Sample.env Sample.email_types Sample.change_world
                Sample.bob_change)) = [u]
    /\ EmailChange.sent
         (trace (EmailChange.userEmailChange
                   Sample.env Sample.email_types Sample.change_world
                   Sample.bob_change)) = [m]
    /\ header_value "x-ticket" (message m) = Some (EmailChange.ticket u)
    /\ obj_get "ticket" (locals m) = Some (JStr (EmailChange.ticket u))
    /\ obj_get "link" (locals m)
       = Some (JStr ("https://auth.example.com"
                     ++ "/verify?&ticket=" ++ EmailChange.ticket u
                     ++ "&type=" ++ "emailConfirmChange"
                     ++ "&redirectTo=" ++ "https://app.example.com/done")).
Proof.
  apply (stored_ticket_is_mailed_ticket
           Sample.env Sample.email_types Sample.change_world Sample.bob_change).
  reflexivity.
Defined.

Lemma confirmation_goes_to_new_address_witness :
  exists m,
    EmailChange.sent
      (trace (EmailChange.userEmailChange
                Sample.env Sample.email_types Sample.change_world
                Sample.bob_change)) = [m]
    /\ EmailChange.delivered
         (trace (EmailChange.userEmailChange
                   Sample.env Sample.email_types Sample.change_world
                   Sample.bob_change)) = [m]
    /\ to (message m) = "bob@new.example.com".
Proof.
  apply (proj2 (confirmation_goes_to_new_address
                  Sample.env Sample.email_types Sample.change_world
                  Sample.bob_change)).
  reflexivity.
Defined.

(** * More on the registration handler *)

Section RegisterGuards.
Variable config : Register.Config.
Variable W : Register.World.
Variable req : Register.Request.

Local Abbreviation body := (Register.req_body req).
Local Abbreviation the_run := (Register.registerAccount config W req).
Local Abbreviation secret_given :=
  (strict_eq
     (Register.header (Register.ADMIN_SECRET_HEADER (Register.HEADERS config)) req)
     (Register.HASURA_GRAPHQL_ADMIN_SECRET (Register.APPLICATION config))).

(** X1.  The answer "Invalid x-admin-secret" is given exactly when
    registration is for administrators only and the request's admin-secret
    header is not the configured secret; the handler then has called
    nothing. *)
Theorem admin_secret_guard :
  (outcome the_run = Responded (unauthorized "Invalid x-admin-secret")
   <-> Register.ADMIN_ONLY (Register.REGISTRATION config) = true
       /\ secret_given = false)
  /\ (Register.ADMIN_ONLY (Register.REGISTRATION config) = true ->
      secret_given = false ->
      trace the_run = []).
Proof.
  open_register (Register.registerAccount config W req).
  all: split; [split; [intros H | intros [H1 H2]] | intros H1 H2].
  all: split_ors; try congruence; auto.
Qed.

(** X2.  [isAllowedEmail] is asked only when the whitelist is on, and only
    about the email of the request; when it answers no, the request is
    answered "Email not allowed" and this was the handler's only call. *)
Theorem whitelist_guard :
  (forall e r, In (Register.IsAllowedEmail e r) (trace the_run) ->
               Register.WHITELIST (Register.REGISTRATION config) = true
               /\ e = Register.body_email body
               /\ r = Register.isAllowedEmail W e)
  /\ (forall e, In (Register.IsAllowedEmail e (Ok false)) (trace the_run) ->
                outcome the_run = Responded (unauthorized "Email not allowed")
                /\ trace the_run = [Register.IsAllowedEmail e (Ok false)])
  /\ (outcome the_run = Responded (unauthorized "Email not allowed") ->
      trace the_run
      = [Register.IsAllowedEmail (Register.body_email body) (Ok false)]).
Proof.
  open_register (Register.registerAccount config W req).
  all: split; [intros ? ? H | split; [intros ? H | intros H]].
  all: split_ors; try contradiction; try discriminate.
  all: try match goal with
         | H : Register.IsAllowedEmail _ _ = Register.IsAllowedEmail _ _ |- _ =>
             injection H as ? ?
         end.
  all: subst; repeat split; try congruence.
Qed.

(** X3.  When the compromised-password check answers yes, the request is
    answered "Password is too weak": the password is not hashed, nothing is
    inserted and no mail is sent.  That answer is given in no other case. *)
Theorem weak_password_rejected :
  (forall p, In (Register.IsCompromisedPassword p (Ok true)) (trace the_run) ->
             outcome the_run = Responded (badRequest "Password is too weak")
             /\ RegisterLog.hashed (trace the_run) = []
             /\ Register.inserted (trace the_run) = []
             /\ Register.sent (trace the_run) = [])
  /\ (outcome the_run = Responded (badRequest "Password is too weak") ->
      In (Register.IsCompromisedPassword (Register.body_password body) (Ok true))
         (trace the_run)).
Proof.
  open_register (Register.registerAccount config W req).
  all: split; [intros ? H | intros H].
  all: split_ors; try contradiction; try discriminate.
  all: repeat split; auto 10.
Qed.

(** What has happened by the time an account is inserted. *)
Lemma insert_follows_checks (a : Register.AccountInsertInput) :
  In a (Register.inserted (trace the_run)) ->
  In (Register.SelectAccountByEmail (Register.email a) (Ok None))
     (RegisterLog.before_insert (trace the_run))
  /\ RegisterLog.looked_up (trace the_run) = [Register.body_email body]
  /\ (Register.isRegularLogin W body = true ->
      exists h,
        Register.password_hash a = Some h
        /\ In (Register.IsCompromisedPassword (Register.body_password body) (Ok false))
              (RegisterLog.before_insert (trace the_run))
        /\ In (Register.HashPassword (Register.body_password body) (Ok h))
              (RegisterLog.before_insert (trace the_run)))
  /\ Register.user_data a
     = obj_spread
         [("display_name", JStr (Register.body_email body));
          ("avatar_url",
           Register.js_string
             (Register.getGravatarUrl W (Register.body_email body)))]
         (nullish (Register.body_user_data body) []).
Proof.
  open_register (Register.registerAccount config W req).
  all: intros H; try contradiction.
  all: destruct H as [<-|[]]; cbn.
  all: repeat split; auto 10.
  all: intros R; try discriminate R.
  all: eexists; repeat split; auto 10.
Qed.

(** X4.  An account is inserted only after [selectAccountByEmail] has
    answered that the email of the request has no account; the email
    inserted is the email looked up, and it is looked up once. *)
Theorem insert_only_after_lookup (a : Register.AccountInsertInput) :
  In a (Register.inserted (trace the_run)) ->
  Register.email a = Register.body_email body
  /\ In (Register.SelectAccountByEmail (Register.body_email body) (Ok None))
        (RegisterLog.before_insert (trace the_run))
  /\ RegisterLog.looked_up (trace the_run) = [Register.body_email body].
Proof.
  intros Ha.
  destruct (insert_follows_checks a Ha) as (Hl & Hu & _ & _).
  destruct (inserted_account config W req a Ha) as (_ & _ & _ & _ & He & _).
  rewrite He in Hl. auto.
Qed.

(** X5.  For a regular login the [password_hash] inserted is what
    [hashPassword] returned for the password of the request, and by then
    the compromised-password check has answered no for that password. *)
Theorem password_stored_hashed (a : Register.AccountInsertInput) :
  In a (Register.inserted (trace the_run)) ->
  Register.isRegularLogin W body = true ->
  exists h,
    Register.password_hash a = Some h
    /\ Register.hashPassword W (Register.body_password body) = Ok h
    /\ In (Register.IsCompromisedPassword (Register.body_password body) (Ok false))
          (RegisterLog.before_insert (trace the_run))
    /\ In (Register.HashPassword (Register.body_password body) (Ok h))
          (RegisterLog.before_insert (trace the_run)).
Proof.
  intros Ha R.
  destruct (insert_follows_checks a Ha) as (_ & _ & Hp & _).
  destruct (Hp R) as (h & Hh & Hc & Hs).
  destruct (inserted_account config W req a Ha)
    as (_ & _ & _ & _ & _ & _ & _ & Hq & _).
  rewrite R, Hh in Hq.
  exists h. repeat split; auto.
  destruct (Register.hashPassword W (Register.body_password body));
    congruence.
Qed.

(** X6.  Every account inserted has its default role among its own roles,
    all its roles (the default role too) among
    [REGISTRATION.ALLOWED_USER_ROLES], and is active exactly when new users
    are auto-activated. *)
Theorem inserted_roles_are_configured (a : Register.AccountInsertInput) :
  In a (Register.inserted (trace the_run)) ->
  In (Register.default_role a)
     (map Register.role (Register.account_roles_data a))
  /\ (forall r, In r (Register.account_roles_data a) ->
                In (Register.role r)
                   (Register.ALLOWED_USER_ROLES (Register.REGISTRATION config)))
  /\ In (Register.default_role a)
        (Register.ALLOWED_USER_ROLES (Register.REGISTRATION config))
  /\ Register.active a
     = Register.AUTO_ACTIVATE_NEW_USERS (Register.REGISTRATION config).
Proof.
  intros Ha.
  destruct (inserted_account config W req a Ha)
    as (_ & _ & Hin & Hsub & _ & _ & _ & _ & Hd & Hr & Hact).
  assert (Hmem : forall xs x, includes xs x = true -> In x xs).
  { intros xs x H. unfold includes in H. apply existsb_exists in H.
    destruct H as (y & Hy & Heq). apply String.eqb_eq in Heq. congruence. }
  assert (Hall : forall r, In r (Register.resolved_allowed_roles config body) ->
                 In r (Register.ALLOWED_USER_ROLES (Register.REGISTRATION config))).
  { intros r Hr'. apply Hmem.
    unfold every in Hsub. rewrite forallb_forall in Hsub. apply Hsub, Hr'. }
  rewrite Hd, Hr, map_map. cbn. rewrite map_id.
  repeat split.
  - apply Hmem, Hin.
  - intros r Hr'. apply in_map_iff in Hr'. destruct Hr' as (x & <- & Hx).
    cbn. apply Hall, Hx.
  - apply Hall, Hmem, Hin.
  - exact Hact.
Qed.

(** Everything about a mail of the registration. *)
Lemma registration_mail_facts (m : Email) :
  In m (Register.sent (trace the_run)) ->
  Register.sent (trace the_run) = [m]
  /\ negb (Register.AUTO_ACTIVATE_NEW_USERS (Register.REGISTRATION config))
     && Register.VERIFY_EMAILS (Register.AUTHENTICATION config) = true
  /\ Register.EMAILS_ENABLED (Register.APPLICATION config) = true
  /\ RegisterLog.refreshed (trace the_run) = []
  /\ exists a row rest,
       Register.inserted (trace the_run) = [a]
       /\ RegisterLog.returned (trace the_run) = [row :: rest]
       /\ headers (message m)
          = [("x-ticket", {| prepared := true; value := Register.ticket a |})]
       /\ (if Register.isMagicLinkLogin W body
           then template m = "magic-link"
                /\ to (message m) = Register.account_email row
                /\ obj_get "token" (locals m) = Some (JStr (Register.ticket a))
           else template m = "activate-account"
                /\ to (message m) = Register.body_email body
                /\ obj_get "ticket" (locals m) = Some (JStr (Register.ticket a)))
       /\ obj_get "display_name" (locals m)
          = Some (if obj_has "display_name"
                       (nullish (Register.body_user_data body) [])
                  then obj_prop "display_name"
                         (nullish (Register.body_user_data body) [])
                  else JStr (Register.body_email body))
       /\ obj_get "locale" (locals m) = Some (JStr (Register.account_locale row))
       /\ Register.user_data a
          = obj_spread
              [("display_name", JStr (Register.body_email body));
               ("avatar_url",
                Register.js_string
                  (Register.getGravatarUrl W (Register.body_email body)))]
              (nullish (Register.body_user_data body) []).
Proof.
  open_register (Register.registerAccount config W req).
  all: intros H; try contradiction.
  all: destruct H as [<-|[]]; cbn.
  all: repeat split; try assumption.
  all: do 3 eexists; repeat split.
Qed.

(** X7.  A mail is handed to the transport only when auto-activation is
    off, mail verification is on and mail is enabled, only after the
    insertion has returned a row, and at most once; its only header is
    [x-ticket] with the ticket that was inserted, and no refresh token is
    requested in the same run. *)
Theorem mail_only_after_insert (m : Email) :
  In m (Register.sent (trace the_run)) ->
  Register.sent (trace the_run) = [m]
  /\ negb (Register.AUTO_ACTIVATE_NEW_USERS (Register.REGISTRATION config))
     && Register.VERIFY_EMAILS (Register.AUTHENTICATION config) = true
  /\ Register.EMAILS_ENABLED (Register.APPLICATION config) = true
  /\ RegisterLog.refreshed (trace the_run) = []
  /\ exists a row rest,
       Register.inserted (trace the_run) = [a]
       /\ RegisterLog.returned (trace the_run) = [row :: rest]
       /\ headers (message m)
          = [("x-ticket", {| prepared := true; value := Register.ticket a |})]
       /\ header_value "x-ticket" (message m) = Some (Register.ticket a).
Proof.
  intros Hm.
  destruct (registration_mail_facts m Hm)
    as (Hs & Hf & He & Hr & a & row & rest & Hi & Hret & Hh & _).
  repeat split; auto.
  exists a, row, rest. repeat split; auto.
  unfold header_value. rewrite Hh. reflexivity.
Qed.

(** X8.  A magic-link login gets the [magic-link] mail, addressed to the
    email of the row the backend returned, with the ticket as [token];
    every other login gets the [activate-account] mail, addressed to the
    email of the request, with the ticket as [ticket].  The mail's locale is
    the one of the returned row. *)
Theorem mail_kind_and_recipient (m : Email) :
  In m (Register.sent (trace the_run)) ->
  exists a row rest,
    Register.inserted (trace the_run) = [a]
    /\ RegisterLog.returned (trace the_run) = [row :: rest]
    /\ obj_get "locale" (locals m) = Some (JStr (Register.account_locale row))
    /\ (if Register.isMagicLinkLogin W body
        then template m = "magic-link"
             /\ to (message m) = Register.account_email row
             /\ obj_get "token" (locals m) = Some (JStr (Register.ticket a))
        else template m = "activate-account"
             /\ to (message m) = Register.body_email body
             /\ obj_get "ticket" (locals m) = Some (JStr (Register.ticket a))).
Proof.
  intros Hm.
  destruct (registration_mail_facts m Hm)
    as (_ & _ & _ & _ & a & row & rest & Hi & Hret & _ & Hk & _ & Hl & _).
  exists a, row, rest. auto.
Qed.

(** What the handler does once the insertion has been sent. *)
Lemma after_the_insert :
  (negb (Register.AUTO_ACTIVATE_NEW_USERS (Register.REGISTRATION config))
   && Register.VERIFY_EMAILS (Register.AUTHENTICATION config) = true ->
   Register.EMAILS_ENABLED (Register.APPLICATION config) = false ->
   Register.sent (trace the_run) = []
   /\ RegisterLog.refreshed (trace the_run) = []
   /\ (forall s, outcome the_run <> Responded (Send s))
   /\ (forall a row rest,
         In (Register.InsertAccount a (Ok (row :: rest))) (trace the_run) ->
         outcome the_run = Failed (Error "SMTP settings unavailable")))
  /\ (forall a,
         In (Register.InsertAccount a (Ok [])) (trace the_run) ->
         outcome the_run = Failed TypeError
         /\ Register.sent (trace the_run) = []
         /\ RegisterLog.refreshed (trace the_run) = [])
  /\ (forall i r,
         In (Register.SetRefreshToken i r) (trace the_run) ->
         negb (Register.AUTO_ACTIVATE_NEW_USERS (Register.REGISTRATION config))
         && Register.VERIFY_EMAILS (Register.AUTHENTICATION config) = false
         /\ Register.sent (trace the_run) = []
         /\ RegisterLog.refreshed (trace the_run) = [i]
         /\ exists a row rest,
              Register.inserted (trace the_run) = [a]
              /\ RegisterLog.returned (trace the_run) = [row :: rest]
              /\ i = Register.account_id row)
  /\ (forall s,
         outcome the_run = Responded (Send s) ->
         exists a row rest,
           Register.inserted (trace the_run) = [a]
           /\ RegisterLog.returned (trace the_run) = [row :: rest]
           /\ Register.session_user s
              = {| Register.ud_id := Register.user_id (Register.account_user row);
                   Register.ud_display_name :=
                     Register.user_display_name (Register.account_user row);
                   Register.ud_email := Register.account_email row;
                   Register.ud_avatar_url :=
                     Register.user_avatar_url (Register.account_user row) |}
           /\ (forall j, Register.jwt_token s = Some j ->
                         j = Register.createHasuraJwt W row
                         /\ RegisterLog.refreshed (trace the_run)
                            = [Register.account_id row])).
Proof.
  open_register (Register.registerAccount config W req).
  all: split; [intros F1 F2 | split; [intros ? H | split; [intros ? ? H | intros ? H]]].
  all: split_ors; try contradiction; try discriminate; try congruence.
  all: try match goal with
         | H : Responded (Send _) = Responded (Send _) |- _ => injection H as <-
         end.
  all: repeat split; try congruence; try discriminate.
  all: try (intros; split_ors; try contradiction; try discriminate; congruence).
  all: try (do 3 eexists; repeat split; cbn; try congruence).
  all: cbn in *; congruence.
Qed.

End RegisterGuards.

(** * The registration handler after the insertion *)

Section RegisterTail.
Variable config : Register.Config.
Variable W : Register.World.
Variable req : Register.Request.

Local Abbreviation body := (Register.req_body req).
Local Abbreviation the_run := (Register.registerAccount config W req).
Local Abbreviation verification_due :=
  (negb (Register.AUTO_ACTIVATE_NEW_USERS (Register.REGISTRATION config))
   && Register.VERIFY_EMAILS (Register.AUTHENTICATION config)).

(** X9.  With verification due but mail disabled, no registration succeeds,
    no mail is sent and no refresh token is requested; a request whose
    insertion returned a row fails with "SMTP settings unavailable", after
    the account has been inserted. *)
Theorem smtp_unavailable_after_insert :
  verification_due = true ->
  Register.EMAILS_ENABLED (Register.APPLICATION config) = false ->
  Register.sent (trace the_run) = []
  /\ RegisterLog.refreshed (trace the_run) = []
  /\ (forall s, outcome the_run <> Responded (Send s))
  /\ (forall a row rest,
        In (Register.InsertAccount a (Ok (row :: rest))) (trace the_run) ->
        outcome the_run = Failed (Error "SMTP settings unavailable")
        /\ Register.inserted (trace the_run) = [a]).
Proof.
  intros Hv He.
  destruct (after_the_insert config W req) as (H & _).
  destruct (H Hv He) as (Hs & Hr & Hn & Hf).
  repeat split; auto.
  - apply (Hf a row rest). assumption.
  - assert (Hin : In a (Register.inserted (trace the_run))).
    { unfold Register.inserted. apply in_flat_map.
      exists (Register.InsertAccount a (Ok (row :: rest))).
      split; [assumption | left; reflexivity]. }
    apply (inserted_account config W req a Hin).
Qed.

(** X10.  When the mutation returns no row, the handler throws a
    [TypeError]; no mail is sent and no refresh token is requested. *)
Theorem empty_returning_fails (a : Register.AccountInsertInput) :
  In (Register.InsertAccount a (Ok [])) (trace the_run) ->
  outcome the_run = Failed TypeError
  /\ Register.sent (trace the_run) = []
  /\ RegisterLog.refreshed (trace the_run) = [].
Proof.
  intros H. apply (proj1 (proj2 (after_the_insert config W req)) a H).
Qed.

(** X11.  A refresh token is requested only when no verification is due,
    only for the id of the row the insertion returned, and at most once;
    no mail is sent in the same run. *)
Theorem refresh_token_for_inserted_account (i : string) (r : Result string) :
  In (Register.SetRefreshToken i r) (trace the_run) ->
  verification_due = false
  /\ Register.sent (trace the_run) = []
  /\ RegisterLog.refreshed (trace the_run) = [i]
  /\ exists a row rest,
       Register.inserted (trace the_run) = [a]
       /\ RegisterLog.returned (trace the_run) = [row :: rest]
       /\ i = Register.account_id row.
Proof.
  intros H.
  apply (proj1 (proj2 (proj2 (after_the_insert config W req))) i r H).
Qed.

(** X12.  The user of the session is read from the row the insertion
    returned; a JWT in the session is the one created for that row, and the
    refresh token was requested for that row's id. *)
Theorem session_describes_returned_row (s : Register.Session) :
  outcome the_run = Responded (Send s) ->
  exists a row rest,
    Register.inserted (trace the_run) = [a]
    /\ RegisterLog.returned (trace the_run) = [row :: rest]
    /\ Register.session_user s
       = {| Register.ud_id := Register.user_id (Register.account_user row);
            Register.ud_display_name :=
              Register.user_display_name (Register.account_user row);
            Register.ud_email := Register.account_email row;
            Register.ud_avatar_url :=
              Register.user_avatar_url (Register.account_user row) |}
    /\ (forall j, Register.jwt_token s = Some j ->
                  j = Register.createHasuraJwt W row
                  /\ RegisterLog.refreshed (trace the_run)
                     = [Register.account_id row]).
Proof.
  intros H.
  apply (proj2 (proj2 (proj2 (after_the_insert config W req))) s H).
Qed.

(** X13.  When an awaited call is rejected, the request fails with the
    exception of that call, and the rejected call is the last thing the
    handler has done. *)
Theorem rejected_call_ends_request (ev : Register.Event) (x : Exn) :
  In ev (trace the_run) ->
  RegisterLog.rejection ev = Some x ->
  outcome the_run = Failed x
  /\ trace the_run = (removelast (trace the_run) ++ [ev])%list.
Proof.
  open_register (Register.registerAccount config W req).
  all: intros H R; split_ors; try contradiction; subst ev; cbn in R;
       try discriminate R.
  all: injection R as <-; split; reflexivity.
Qed.

Lemma obj_get_set (k k' : string) (v : JsValue) (o : Obj) :
  obj_get k (obj_set k' v o)
  = if String.eqb k k' then Some v else obj_get k o.
Proof.
  induction o as [|[k1 v1] o IH]; cbn.
  - reflexivity.
  - destruct (String.eqb_spec k' k1) as [->|N]; cbn.
    + destruct (String.eqb k k1); reflexivity.
    + destruct (String.eqb_spec k k1) as [->|N1].
      * destruct (String.eqb_spec k1 k'); [congruence | reflexivity].
      * exact IH.
Qed.

Lemma obj_get_absent (k : string) (o : Obj) :
  ~ In k (RegisterLog.keys o) -> obj_get k o = None.
Proof.
  induction o as [|[k1 v1] o IH]; cbn; intros H; [reflexivity|].
  destruct (String.eqb_spec k k1) as [->|N].
  - exfalso. apply H. left. reflexivity.
  - apply IH. intros Hin. apply H. right. exact Hin.
Qed.

(** [{...base, ...over}] read at one key, for an object [over] whose
    property names are distinct. *)
Lemma obj_get_spread (k : string) (over base : Obj) :
  NoDup (RegisterLog.keys over) ->
  obj_get k (obj_spread base over)
  = match obj_get k over with
    | Some v => Some v
    | None => obj_get k base
    end.
Proof.
  unfold obj_spread. revert base.
  induction over as [|[k1 v1] over IH]; cbn; intros base D; [reflexivity|].
  inversion D as [|? ? Hnot D']; subst.
  rewrite (IH _ D'), obj_get_set.
  destruct (String.eqb_spec k k1) as [->|N].
  - rewrite (obj_get_absent k1 over Hnot). reflexivity.
  - reflexivity.
Qed.

(** X14.  The display name stored with the new user is the [display_name]
    of the request's [user_data] when there is one and the email otherwise,
    and a mail of the same run shows the same name. *)
Theorem display_name_stored_and_mailed (a : Register.AccountInsertInput) :
  NoDup (RegisterLog.keys (nullish (Register.body_user_data body) [])) ->
  In a (Register.inserted (trace the_run)) ->
  obj_get "display_name" (Register.user_data a)
  = Some (match obj_get "display_name"
                  (nullish (Register.body_user_data body) []) with
          | Some v => v
          | None => JStr (Register.body_email body)
          end)
  /\ (forall m, In m (Register.sent (trace the_run)) ->
                obj_get "display_name" (locals m)
                = obj_get "display_name" (Register.user_data a)).
Proof.
  intros D Ha.
  assert (Hstored :=
    proj2 (proj2 (proj2 (insert_follows_checks config W req a Ha)))).
  assert (Hname :
    obj_get "display_name" (Register.user_data a)
    = Some (match obj_get "display_name"
                    (nullish (Register.body_user_data body) []) with
            | Some v => v
            | None => JStr (Register.body_email body)
            end)).
  { rewrite Hstored, (obj_get_spread _ _ _ D).
    destruct (obj_get "display_name" _); reflexivity. }
  split; [exact Hname|].
  intros m Hm.
  destruct (registration_mail_facts config W req m Hm)
    as (_ & _ & _ & _ & a' & row & rest & _ & _ & _ & _ & Hd & _).
  rewrite Hd, Hname. unfold obj_has, obj_prop.
  destruct (obj_get "display_name" (nullish (Register.body_user_data body) []));
    reflexivity.
Qed.

(** The handler itself never answers for the route. *)
Lemma handler_never_answers_for_route :
  outcome the_run
  <> Responded (badRequest "Magic link registration is disabled").
Proof.
  open_register (Register.registerAccount config W req).
  all: unfold badRequest, unauthorized; discriminate.
Qed.

(** X15.  The route answers "Magic link registration is disabled" exactly
    for a magic-link registration while magic links are off, and then
    nothing is called; every other request is handled as [registerAccount]
    handles it. *)
Theorem magic_link_route :
  (outcome (Register.register_route config W req)
   = Responded (badRequest "Magic link registration is disabled")
   <-> Register.isMagicLinkRegister W body
       && negb (Register.MAGIC_LINK_ENABLED (Register.AUTHENTICATION config))
       = true)
  /\ (Register.isMagicLinkRegister W body
      && negb (Register.MAGIC_LINK_ENABLED (Register.AUTHENTICATION config))
      = true ->
      trace (Register.register_route config W req) = [])
  /\ (Register.isMagicLinkRegister W body
      && negb (Register.MAGIC_LINK_ENABLED (Register.AUTHENTICATION config))
      = false ->
      Register.register_route config W req = the_run).
Proof.
  unfold Register.register_route.
  destruct (_ && _) eqn:G.
  - repeat split; intros; try reflexivity; discriminate.
  - repeat split; intros; try reflexivity; try discriminate.
    exfalso. eapply handler_never_answers_for_route. eassumption.
Qed.

End RegisterTail.

(** * More on the email-change handler *)

Section EmailChangeMore.
Variable ENV : EmailChange.Env.
Variable EMAIL_TYPES : EmailChange.EmailTypes.
Variable W : EmailChange.World.
Variable req : EmailChange.Request.

Local Abbreviation the_change :=
  (EmailChange.userEmailChange ENV EMAIL_TYPES W req).
Local Abbreviation the_ticket :=
  (EmailChange.CONFIRM_CHANGE EMAIL_TYPES ++ ":" ++ EmailChange.uuidv4 W).

(** X16.  Without [req.auth] the handler throws a [TypeError] before it
    calls anything.  Any update it sends is for the user id of [req.auth],
    carries the new email of the request body, and is the only update of
    the run. *)
Theorem update_targets_authenticated_user :
  (EmailChange.req_auth req = None ->
   outcome the_change = Failed TypeError /\ trace the_change = [])
  /\ (forall v r,
         In (EmailChange.UpdateUser v r) (trace the_change) ->
         (exists a, EmailChange.req_auth req = Some a
                    /\ EmailChange.id v = EmailChange.userId a)
         /\ EmailChange.newEmail (EmailChange.user v)
            = EmailChange.body_newEmail (EmailChange.req_body req)
         /\ ChangeLog.targets (trace the_change) = [EmailChange.id v]).
Proof.
  open_change (EmailChange.userEmailChange ENV EMAIL_TYPES W req).
  all: split; [intros H | intros ? ? H].
  all: split_ors; try contradiction; try discriminate.
  all: try (split; reflexivity).
  all: injection H as <- <-; repeat split; eauto.
Qed.

(** X17.  When the update or the mail is rejected, the request fails with
    the exception of that call, and the rejected call is the last thing the
    handler has done: a rejected update is followed by no mail. *)
Theorem rejected_call_ends_change (ev : EmailChange.Event) (x : Exn) :
  In ev (trace the_change) ->
  ChangeLog.rejection ev = Some x ->
  outcome the_change = Failed x
  /\ trace the_change = (removelast (trace the_change) ++ [ev])%list.
Proof.
  open_change (EmailChange.userEmailChange ENV EMAIL_TYPES W req).
  all: intros H R; split_ors; try contradiction; subst ev; cbn in R;
       try discriminate R.
  all: injection R as <-; split; reflexivity.
Qed.

(** X18.  When the mail transport rejects the mail, the request fails, but
    the ticket, its expiry and the new email have been written to the user
    record before, and stay there. *)
Theorem mail_failure_keeps_update (m : Email) (x : Exn) :
  In (EmailChange.EmailSend m (Rejected x)) (trace the_change) ->
  outcome the_change = Failed x
  /\ EmailChange.delivered (trace the_change) = []
  /\ EmailChange.updated (trace the_change)
     = [{| EmailChange.ticket := the_ticket;
           EmailChange.ticketExpiresAt :=
             EmailChange.generateTicketExpiresAt (EmailChange.Date_now W) (60 * 60);
           EmailChange.newEmail :=
             EmailChange.body_newEmail (EmailChange.req_body req) |}].
Proof.
  open_change (EmailChange.userEmailChange ENV EMAIL_TYPES W req).
  all: intros H; split_ors; try contradiction; try discriminate.
  all: injection H as <- <-; repeat split.
Qed.

(** X19.  A mail is handed to the transport only after the update has
    returned the user record, as the second and last call of the run.  Its
    display name and locale are those of that record, with
    [AUTH_LOCALE_DEFAULT] for a user without a locale; its headers repeat the
    redirection target and the template name. *)
Theorem change_mail_describes_updated_user (m : Email) :
  In m (EmailChange.sent (trace the_change)) ->
  exists v u r,
    trace the_change
    = [EmailChange.UpdateUser v (Ok (Some u)); EmailChange.EmailSend m r]
    /\ template m = "email-confirm-change"
    /\ obj_get "displayName" (locals m) = Some (JStr (EmailChange.displayName u))
    /\ obj_get "locale" (locals m)
       = Some (JStr (match EmailChange.locale u with
                     | Some l => l
                     | None => EmailChange.AUTH_LOCALE_DEFAULT ENV
                     end))
    /\ header_value "x-redirect-to" (message m)
       = Some (EmailChange.redirectTo
                 (EmailChange.body_options (EmailChange.req_body req)))
    /\ header_value "x-email-template" (message m) = Some (template m).
Proof.
  open_change (EmailChange.userEmailChange ENV EMAIL_TYPES W req).
  all: intros H; split_ors; try contradiction.
  all: subst m; do 3 eexists; repeat split.
Qed.

End EmailChangeMore.

(** * More of the handlers at work *)

Lemma admin_secret_guard_witness :
  outcome (Register.registerAccount
             Scenario.admin_only Sample.world Scenario.intruder)
  = Responded (unauthorized "Invalid x-admin-secret")
  /\ trace (Register.registerAccount
              Scenario.admin_only Sample.world Scenario.intruder) = [].
Proof.
  destruct (admin_secret_guard
              Scenario.admin_only Sample.world Scenario.intruder) as [Hiff Ht].
  split.
  - apply (proj2 Hiff). split; reflexivity.
  - apply Ht; reflexivity.
Defined.

Lemma whitelist_guard_witness :
  outcome (Register.registerAccount
             Scenario.whitelisted Scenario.gated Sample.carol_password)
  = Responded (unauthorized "Email not allowed")
  /\ trace (Register.registerAccount
              Scenario.whitelisted Scenario.gated Sample.carol_password)
     = [Register.IsAllowedEmail "carol@example.com" (Ok false)].
Proof.
  apply (proj1 (proj2 (whitelist_guard
                         Scenario.whitelisted Scenario.gated
                         Sample.carol_password))
               "carol@example.com").
  simpl. left. reflexivity.
Defined.

Lemma weak_password_rejected_witness :
  outcome (Register.registerAccount
             Sample.verifying Sample.world Scenario.carol_weak)
  = Responded (badRequest "Password is too weak")
  /\ RegisterLog.hashed
       (trace (Register.registerAccount
                 Sample.verifying Sample.world Scenario.carol_weak)) = []
  /\ Register.inserted
       (trace (Register.registerAccount
                 Sample.verifying Sample.world Scenario.carol_weak)) = []
  /\ Register.sent
       (trace (Register.registerAccount
                 Sample.verifying Sample.world Scenario.carol_weak)) = [].
Proof.
  apply (proj1 (weak_password_rejected
                  Sample.verifying Sample.world Scenario.carol_weak)
               (Some "password")).
  simpl. right. left. reflexivity.
Defined.

Lemma insert_only_after_lookup_witness :
  Register.email Scenario.carol_input = "carol@example.com"
  /\ In (Register.SelectAccountByEmail "carol@example.com" (Ok None))
        (RegisterLog.before_insert
           (trace (Register.registerAccount
                     Sample.verifying Sample.world Sample.carol_password)))
  /\ RegisterLog.looked_up
       (trace (Register.registerAccount
                 Sample.verifying Sample.world Sample.carol_password))
     = ["carol@example.com"].
Proof.
  apply (insert_only_after_lookup
           Sample.verifying Sample.world Sample.carol_password
           Scenario.carol_input).
  simpl. left. reflexivity.
Defined.

Lemma password_stored_hashed_witness :
  exists h,
    Register.password_hash Scenario.carol_input = Some h
    /\ Register.hashPassword Sample.world (Some "hunter22") = Ok h
    /\ In (Register.IsCompromisedPassword (Some "hunter22") (Ok false))
          (RegisterLog.before_insert
             (trace (Register.registerAccount
                       Sample.verifying Sample.world Sample.carol_password)))
    /\ In (Register.HashPassword (Some "hunter22") (Ok h))
          (RegisterLog.before_insert
             (trace (Register.registerAccount
                       Sample.verifying Sample.world Sample.carol_password))).
Proof.
  apply (password_stored_hashed
           Sample.verifying Sample.world Sample.carol_password
           Scenario.carol_input).
  - simpl. left. reflexivity.
  - reflexivity.
Defined.

Lemma inserted_roles_are_configured_witness :
  In "user" (map Register.role (Register.account_roles_data Scenario.carol_input))
  /\ (forall r, In r (Register.account_roles_data Scenario.carol_input) ->
                In (Register.role r) ["user"; "me"])
  /\ In "user" ["user"; "me"]
  /\ Register.active Scenario.carol_input = false.
Proof.
  apply (inserted_roles_are_configured
           Sample.verifying Sample.world Sample.carol_password
           Scenario.carol_input).
  simpl. left. reflexivity.
Defined.

Lemma mail_only_after_insert_witness :
  Register.sent
    (trace (Register.registerAccount
              Sample.verifying Sample.world Sample.carol_password))
  = [Scenario.carol_mail]
  /\ header_value "x-ticket" (message Scenario.carol_mail)
     = Some (Register.ticket Scenario.carol_input).
Proof.
  destruct (mail_only_after_insert
              Sample.verifying Sample.world Sample.carol_password
              Scenario.carol_mail)
    as (Hs & _ & _ & _ & a & row & rest & Hi & _ & _ & Hx).
  - simpl. left. reflexivity.
  - split; [exact Hs|]. injection Hi as <-. exact Hx.
Defined.

Lemma mail_kind_and_recipient_witness :
  template Scenario.carol_mail = "activate-account"
  /\ to (message Scenario.carol_mail) = "carol@example.com"
  /\ obj_get "ticket" (locals Scenario.carol_mail)
     = Some (JStr (Register.ticket Scenario.carol_input)).
Proof.
  destruct (mail_kind_and_recipient
              Sample.verifying Sample.world Sample.carol_password
              Scenario.carol_mail)
    as (a & row & rest & Hi & _ & _ & Hk).
  - simpl. left. reflexivity.
  - injection Hi as <-. exact Hk.
Defined.

Lemma smtp_unavailable_after_insert_witness :
  outcome (Register.registerAccount
             Scenario.no_smtp Sample.world Sample.carol_password)
  = Failed (Error "SMTP settings unavailable")
  /\ Register.inserted
       (trace (Register.registerAccount
                 Scenario.no_smtp Sample.world Sample.carol_password))
     = [Scenario.carol_input]
  /\ Register.sent
       (trace (Register.registerAccount
                 Scenario.no_smtp Sample.world Sample.carol_password)) = [].
Proof.
  destruct (smtp_unavailable_after_insert
              Scenario.no_smtp Sample.world Sample.carol_password
              eq_refl eq_refl) as (Hs & _ & _ & Hf).
  destruct (Hf Scenario.carol_input (Sample.row_of Scenario.carol_input) [])
    as [Ho Hi].
  - simpl. do 3 right. left. reflexivity.
  - auto.
Defined.

Lemma empty_returning_fails_witness :
  outcome (Register.registerAccount
             Sample.verifying Scenario.silent_backend Sample.carol_password)
  = Failed TypeError
  /\ Register.sent
       (trace (Register.registerAccount
                 Sample.verifying Scenario.silent_backend Sample.carol_password))
     = []
  /\ RegisterLog.refreshed
       (trace (Register.registerAccount
                 Sample.verifying Scenario.silent_backend Sample.carol_password))
     = [].
Proof.
  apply (empty_returning_fails
           Sample.verifying Scenario.silent_backend Sample.carol_password
           Scenario.carol_input).
  simpl. do 3 right. left. reflexivity.
Defined.

Lemma refresh_token_for_inserted_account_witness :
  Register.sent
    (trace (Register.registerAccount
              Sample.trusting Sample.world Sample.carol_magic)) = []
  /\ RegisterLog.refreshed
       (trace (Register.registerAccount
                 Sample.trusting Sample.world Sample.carol_magic)) = ["a-2"].
Proof.
  destruct (refresh_token_for_inserted_account
              Sample.trusting Sample.world Sample.carol_magic
              "a-2" (Ok "9a1c3b9e-5c0d-4c1e-8f0a-2b7d6e4f1a23"))
    as (_ & Hs & Hr & _).
  - simpl. do 2 right. left. reflexivity.
  - auto.
Defined.

Lemma session_describes_returned_row_witness :
  exists a row rest,
    Register.inserted
      (trace (Register.registerAccount
                Sample.trusting Sample.world Sample.carol_magic)) = [a]
    /\ RegisterLog.returned
         (trace (Register.registerAccount
                   Sample.trusting Sample.world Sample.carol_magic))
       = [row :: rest]
    /\ Register.session_user Sample.signed_in
       = {| Register.ud_id := Register.user_id (Register.account_user row);
            Register.ud_display_name :=
              Register.user_display_name (Register.account_user row);
            Register.ud_email := Register.account_email row;
            Register.ud_avatar_url :=
              Register.user_avatar_url (Register.account_user row) |}
    /\ (forall j, Register.jwt_token Sample.signed_in = Some j ->
                  j = Register.createHasuraJwt Sample.world row
                  /\ RegisterLog.refreshed
                       (trace (Register.registerAccount
                                 Sample.trusting Sample.world Sample.carol_magic))
                     = [Register.account_id row]).
Proof.
  apply (session_describes_returned_row
           Sample.trusting Sample.world Sample.carol_magic Sample.signed_in).
  reflexivity.
Defined.

Lemma rejected_call_ends_request_witness :
  outcome (Register.registerAccount
             Sample.verifying Scenario.mail_down Sample.carol_password)
  = Failed (Error "ECONNREFUSED")
  /\ Register.inserted
       (trace (Register.registerAccount
                 Sample.verifying Scenario.mail_down Sample.carol_password))
     = [Scenario.carol_input].
Proof.
  destruct (rejected_call_ends_request
              Sample.verifying Scenario.mail_down Sample.carol_password
              (Register.EmailSend Scenario.carol_mail
                 (Rejected (Error "ECONNREFUSED")))
              (Error "ECONNREFUSED")) as [Ho _].
  - simpl. do 4 right. left. reflexivity.
  - reflexivity.
  - split; [exact Ho | reflexivity].
Defined.

Lemma display_name_stored_and_mailed_witness :
  obj_get "display_name" (Register.user_data Scenario.carol_named_input)
  = Some (JStr "Carol")
  /\ map (fun m => obj_get "display_name" (locals m))
         (Register.sent
            (trace (Register.registerAccount
                      Sample.verifying Sample.world Scenario.carol_named)))
     = [Some (JStr "Carol")].
Proof.
  destruct (display_name_stored_and_mailed
              Sample.verifying Sample.world Scenario.carol_named
              Scenario.carol_named_input) as [Hn Hm].
  - simpl. constructor; [intros [] | constructor].
  - simpl. left. reflexivity.
  - split; [exact Hn | reflexivity].
Defined.

Lemma magic_link_route_witness :
  outcome (Register.register_route
             Scenario.no_magic_link Sample.world Sample.carol_magic)
  = Responded (badRequest "Magic link registration is disabled")
  /\ trace (Register.register_route
              Scenario.no_magic_link Sample.world Sample.carol_magic) = []
  /\ Register.register_route Scenario.no_magic_link Sample.world
       Sample.carol_password
     = Register.registerAccount Scenario.no_magic_link Sample.world
         Sample.carol_password.
Proof.
  destruct (magic_link_route
              Scenario.no_magic_link Sample.world Sample.carol_magic)
    as (Hiff & Ht & _).
  destruct (magic_link_route
              Scenario.no_magic_link Sample.world Sample.carol_password)
    as (_ & _ & Hsame).
  split; [apply (proj2 Hiff); reflexivity|].
  split; [apply Ht; reflexivity | apply Hsame; reflexivity].
Defined.

Lemma update_targets_authenticated_user_witness :
  (outcome (EmailChange.userEmailChange
              Sample.env Sample.email_types Sample.change_world
              Scenario.anonymous_change) = Failed TypeError
   /\ trace (EmailChange.userEmailChange
               Sample.env Sample.email_types Sample.change_world
               Scenario.anonymous_change) = [])
  /\ ChangeLog.targets
       (trace (EmailChange.userEmailChange
                 Sample.env Sample.email_types Sample.change_world
                 Sample.bob_change)) = ["u-1"].
Proof.
  split.
  - apply (proj1 (update_targets_authenticated_user
                    Sample.env Sample.email_types Sample.change_world
                    Scenario.anonymous_change)).
    reflexivity.
  - destruct (proj2 (update_targets_authenticated_user
                       Sample.env Sample.email_types Sample.change_world
                       Sample.bob_change)
                {| EmailChange.id := "u-1"; EmailChange.user := Sample.bob_update |}
                (Ok (Some Sample.bob))) as (_ & _ & Ht).
    + simpl. left. reflexivity.
    + exact Ht.
Defined.

Lemma rejected_call_ends_change_witness :
  outcome (EmailChange.userEmailChange
             Sample.env Sample.email_types Scenario.change_mail_down
             Sample.bob_change)
  = Failed (Error "ECONNREFUSED").
Proof.
  apply (proj1 (rejected_call_ends_change
                  Sample.env Sample.email_types Scenario.change_mail_down
                  Sample.bob_change
                  (EmailChange.EmailSend _ (Rejected (Error "ECONNREFUSED")))
                  (Error "ECONNREFUSED")
                  (or_intror (or_introl eq_refl)) eq_refl)).
Defined.

Lemma mail_failure_keeps_update_witness :
  exists m,
    EmailChange.sent
      (trace (EmailChange.userEmailChange
                Sample.env Sample.email_types Scenario.change_mail_down
                Sample.bob_change)) = [m]
    /\ outcome (EmailChange.userEmailChange
                  Sample.env Sample.email_types Scenario.change_mail_down
                  Sample.bob_change)
       = Failed (Error "ECONNREFUSED")
    /\ EmailChange.updated
         (trace (EmailChange.userEmailChange
                   Sample.env Sample.email_types Scenario.change_mail_down
                   Sample.bob_change)) = [Sample.bob_update].
Proof.
  eexists. split; [reflexivity|].
  destruct (mail_failure_keeps_update
              Sample.env Sample.email_types Scenario.change_mail_down
              Sample.bob_change _ (Error "ECONNREFUSED")
              (or_intror (or_introl eq_refl))) as (Ho & _ & Hu).
  split; [exact Ho | exact Hu].
Defined.

Lemma change_mail_describes_updated_user_witness :
  exists m,
    EmailChange.sent
      (trace (EmailChange.userEmailChange
                Sample.env Sample.email_types Sample.change_world
                Sample.bob_change)) = [m]
    /\ obj_get "displayName" (locals m) = Some (JStr "Bob")
    /\ obj_get "locale" (locals m) = Some (JStr "en").
Proof.
  eexists. split; [reflexivity|].
  destruct (change_mail_describes_updated_user
              Sample.env Sample.email_types Sample.change_world
              Sample.bob_change _ (or_introl eq_refl))
    as (v & u & r & Ht & _ & Hd & Hl & _).
  injection Ht as _ Hu _. subst u. split; [exact Hd | exact Hl].
Defined.
